(** * neuro-metrics: the automatic two-sample comparison routine

    A shallow embedding of [compare_groups]
    (src/sber_neuro/stats/tests.py) and the properties of its decision
    procedure: sanitisation, normality diagnosis, test selection,
    significance, direction and message assembly.

    The three SciPy routines the function calls ([stats.shapiro],
    [stats.ttest_ind], [stats.mannwhitneyu]) are not part of the
    repository.  They are taken as a record of operations in a monad with
    exceptions, so the same program text is read in two ways: in the error
    monad [sum exn] (what the caller observes), and in a monad that also
    threads a log (which calls are made, and in which order).
    Samples are lists of binary64 floats; [np.mean] is a total function on
    them.  The warnings NumPy and SciPy emit on degenerate samples are
    outside the model. *)

From Stdlib Require Import Floats ZArith String Ascii List Bool Lia.
From Stdlib Require Import Numbers.DecimalString.
From ExtLib Require Import Structures.Monad Structures.MonadExc.
From ExtLib Require Import Data.Monads.EitherMonad Data.Monads.StateMonad.
Import ListNotations.
Import MonadNotation.
Local Open Scope monad_scope.
Local Open Scope string_scope.
Local Open Scope bool_scope.

Set Implicit Arguments.
Set Warnings "-inexact-float".

(** ** Python exceptions *)

(** [except ValueError] catches [ValueError] and its subclasses; every
    other exception class passes through the handler. *)
Inductive exn : Type :=
| ValueError (msg : string)
| OtherError (cls : string) (msg : string).

Definition exn_class (e : exn) : string :=
  match e with
  | ValueError _ => "ValueError"
  | OtherError cls _ => cls
  end.

Definition is_ValueError (e : exn) : bool :=
  match e with
  | ValueError _ => true
  | OtherError _ _ => false
  end.

(** What a call yields to its caller: a value, or a raised exception. *)
Abbreviation outcome := (sum exn).
Abbreviation Return := (@inr exn _).
Abbreviation Raise := (@inl exn _).

(** ** Text *)

Module Text.

(** [str.isspace] on the ASCII range: TAB, LF, VT, FF, CR, the four
    separators FS GS RS US, and the space. *)
Definition is_space (c : ascii) : bool :=
  (let n := nat_of_ascii c in
  ((9 <=? n) && (n <=? 13)) || ((28 <=? n) && (n <=? 32)))%nat.

Fixpoint lstrip (s : string) : string :=
  match s with
  | EmptyString => EmptyString
  | String c t => if is_space c then lstrip t else s
  end.

Fixpoint rstrip (s : string) : string :=
  match s with
  | EmptyString => EmptyString
  | String c t =>
      match rstrip t with
      | EmptyString => if is_space c then EmptyString else String c EmptyString
      | t' => String c t'
      end
  end.

(** [str.strip()] with no argument. *)
Definition strip (s : string) : string := rstrip (lstrip s).

(** [needle in hay]. *)
Fixpoint contains (needle hay : string) : bool :=
  String.prefix needle hay ||
  match hay with
  | EmptyString => false
  | String _ t => contains needle t
  end.

Fixpoint chars (s : string) : list ascii :=
  match s with
  | EmptyString => []
  | String c t => c :: chars t
  end.

(** [c in s]. *)
Definition mem (c : ascii) (s : string) : bool :=
  existsb (Ascii.eqb c) (chars s).

Definition is_line_break (c : ascii) : bool :=
  (let n := nat_of_ascii c in
  ((10 <=? n) && (n <=? 13)) || ((28 <=? n) && (n <=? 30)))%nat.

Definition is_digit (c : ascii) : bool :=
  (let n := nat_of_ascii c in (48 <=? n) && (n <=? 57))%nat.

(** A full stop closes a sentence when it is followed by white space or
    ends the text; the point inside a decimal number does not. *)
Fixpoint sentences (s : string) : nat :=
  match s with
  | EmptyString => 0
  | String c t =>
      (if Ascii.eqb c "." then
         match t with
         | EmptyString => 1
         | String d _ => if is_space d then 1 else 0
         end
       else 0) + sentences t
  end.

End Text.

(** ** Floats *)

Definition ALPHA : float := 0.05%float.

(** [x >= y], [x < y] and [x > y] on floats; all false on NaN. *)
Definition ge (x y : float) : bool := PrimFloat.leb y x.
Definition lt (x y : float) : bool := PrimFloat.ltb x y.
Definition gt (x y : float) : bool := PrimFloat.ltb y x.

Definition is_finite (x : float) : bool :=
  match Prim2SF x with
  | S754_zero _ | S754_finite _ _ _ => true
  | S754_infinity _ | S754_nan => false
  end.

(** ** [format(x, '.4f')] *)

Module Format.

Definition sign (s : bool) : string := if s then "-" else "".

Definition digit (n : Z) : ascii := ascii_of_nat (48 + Z.to_nat (n mod 10)).

Definition uint_string (n : Z) : string :=
  NilZero.string_of_uint (N.to_uint (Z.to_N n)).

(** [n] has been scaled by 10^4: the last four digits are the fraction. *)
Definition fixed4 (n : Z) : string :=
  uint_string (n / 10000) ++ "." ++
  String (digit (n / 1000)) (String (digit (n / 100))
    (String (digit (n / 10)) (String (digit n) EmptyString))).

(** [num / den] rounded to the nearest integer, ties to even. *)
Definition round_half_even (num den : Z) : Z :=
  let q := (num / den)%Z in
  let r := (num mod den)%Z in
  match (2 * r ?= den)%Z with
  | Lt => q
  | Gt => (q + 1)%Z
  | Eq => if Z.even q then q else (q + 1)%Z
  end.

(** The value of a finite float is [m * 2^e]; the conversion is exact
    (correctly rounded), as CPython's is. *)
Definition scaled4 (m : positive) (e : Z) : Z :=
  if (0 <=? e)%Z then (Z.pos m * 10000 * 2 ^ e)%Z
  else round_half_even (Z.pos m * 10000) (2 ^ (- e)).

Definition format_4f (x : float) : string :=
  match Prim2SF x with
  | S754_nan => "nan"
  | S754_infinity s => sign s ++ "inf"
  | S754_zero s => sign s ++ "0.0000"
  | S754_finite s m e => sign s ++ fixed4 (scaled4 m e)
  end.

(** The characters ['.4f'] can print: digits, the point, the sign, and
    the letters of [nan] and [inf]. *)
Definition fmt_char (c : ascii) : bool :=
  Text.is_digit c || Text.mem c ".-naif".

End Format.

(** ** The program *)

(** The returned dict: ['p_value'], ['significant'], ['message']. *)
Record Result : Type := mkResult {
  p_value : float;
  significant : bool;
  message : string
}.

(** The statistical routines [compare_groups] imports.  [shapiro],
    [ttest_ind] and [mannwhitneyu] stand for the [pvalue] attribute of
    what [scipy.stats] returns; each may raise instead.  [np_mean] is the
    value [np.mean] returns (NaN on an empty sample); the
    [RuntimeWarning] it emits there is not modelled. *)
Record Numerics (m : Type -> Type) : Type := {
  shapiro : list float -> m float;
  ttest_ind : list float -> list float -> m float;
  mannwhitneyu : list float -> list float -> m float;
  np_mean : list float -> float
}.

(** [a[~np.isnan(a)]] *)
Definition sanitize (a : list float) : list float :=
  filter (fun x => negb (PrimFloat.is_nan x)) a.

Section Program.

Context {m : Type -> Type} {Monad_m : Monad m} {Exc_m : MonadExc exn m}.
Variable lib : Numerics m.

(** The [try ... except ValueError] block: both diagnostics run inside
    it, and the handler resets both verdicts. *)
Definition check_normality (a b : list float) : m (bool * bool) :=
  catch
    (shapiro_a <- shapiro lib a ;;
     shapiro_b <- shapiro lib b ;;
     let is_normal_a := ge shapiro_a ALPHA in
     let is_normal_b := ge shapiro_b ALPHA in
     ret (is_normal_a, is_normal_b))
    (fun e =>
       match e with
       | ValueError _ => ret (false, false)
       | OtherError _ _ => raise e
       end).

(** The [if is_normal_a and is_normal_b] block. *)
Definition decide_on_test (is_normal_a is_normal_b : bool)
    (a b : list float) : m (string * float) :=
  if is_normal_a && is_normal_b then
    p_value <- ttest_ind lib a b ;;
    ret ("T-test", p_value)
  else
    p_value <- mannwhitneyu lib a b ;;
    ret ("Mann-Whitney U test", p_value).

(** Lines 56-78: significance, direction, message, the dict. *)
Definition report (test_used : string) (p_value : float)
    (a b : list float) : Result :=
  let significant := lt p_value ALPHA in
  let mean_a := np_mean lib a in
  let mean_b := np_mean lib b in
  let '(direction, msg_start) :=
    if significant then
      (if gt mean_a mean_b then "Group A mean is higher."
       else "Group B mean is higher.",
       "Significant difference found (p = " ++
         Format.format_4f p_value ++ ").")
    else
      ("",
       "No significant difference found (p = " ++
         Format.format_4f p_value ++ ").") in
  let message :=
    Text.strip (msg_start ++ " Used " ++ test_used ++ ". " ++ direction) in
  mkResult p_value significant message.

Definition compare_groups (data_a data_b : list float) (method : string)
    : m Result :=
  let a := sanitize data_a in
  let b := sanitize data_b in
  '(is_normal_a, is_normal_b) <- check_normality a b ;;
  '(test_used, p_value) <- decide_on_test is_normal_a is_normal_b a b ;;
  ret (report test_used p_value a b).

End Program.

(** ** Two readings of the program *)

(** What the caller observes: the error monad. *)
Definition Scipy : Type := Numerics (sum exn).

(** The same text run in an ambient world [W] that library calls may
    read and write; a raised exception keeps the world reached so far. *)
Definition world (W : Type) : Type -> Type := eitherT exn (state W).

Definition run {W A : Type} (c : world W A) (w : W) : (exn + A) * W :=
  runState (unEitherT c) w.

(** One call into SciPy, as it would appear in a call log. *)
Inductive Call : Type :=
| CallShapiro (x : list float)
| CallTTest (x y : list float)
| CallMannWhitney (x y : list float).

Definition log_call {A : Type} (c : Call) (r : exn + A) : world (list Call) A :=
  mkEitherT (mkState (fun w => (r, (w ++ [c])%list))).

(** A library that answers as [lib] does and records every call. *)
Definition logged (lib : Scipy) : Numerics (world (list Call)) := {|
  shapiro := fun x => log_call (CallShapiro x) (shapiro lib x);
  ttest_ind := fun x y => log_call (CallTTest x y) (ttest_ind lib x y);
  mannwhitneyu := fun x y =>
    log_call (CallMannWhitney x y) (mannwhitneyu lib x y);
  np_mean := np_mean lib
|}.

(** The SciPy calls one invocation makes, in order. *)
Definition calls (lib : Scipy) (data_a data_b : list float) (method : string)
    : list Call :=
  snd (run (compare_groups (logged lib) data_a data_b method) []).

Definition is_hypothesis_test (c : Call) : bool :=
  match c with
  | CallShapiro _ => false
  | CallTTest _ _ | CallMannWhitney _ _ => true
  end.

(** The verdict of the diagnostic on one sample taken alone:
    Shapiro-Wilk ran and its p-value is at least 0.05. *)
Definition classified_normal (lib : Scipy) (x : list float) : bool :=
  match shapiro lib x with
  | inr p => ge p ALPHA
  | inl _ => false
  end.

(** ** A stand-in for SciPy, for concrete runs *)

Module Double.

Definition of_nat (n : nat) : float :=
  PrimFloat.of_uint63 (Uint63.of_Z (Z.of_nat n)).

(** The sum from left to right, divided by the count; 0/0 is NaN, as
    [np.mean] of an empty array is.  [np.mean] sums pairwise, so the two
    agree where the partial sums are exact (as in the runs below), and
    may differ in the last place on eight or more inexact terms. *)
Definition mean (x : list float) : float :=
  PrimFloat.div (fold_left PrimFloat.add x 0%float) (of_nat (length x)).

(** [stats.shapiro] rejects fewer than three observations and
    [stats.mannwhitneyu] rejects an empty sample, both with a
    [ValueError]; the p-values themselves are supplied. *)
Definition scipy (p_shapiro : list float -> float)
    (p_ttest p_mwu : list float -> list float -> float) : Scipy := {|
  shapiro := fun x =>
    if (length x <? 3)%nat
    then inl (ValueError "Data must be at least length 3.")
    else inr (p_shapiro x);
  ttest_ind := fun x y => inr (p_ttest x y);
  mannwhitneyu := fun x y =>
    if ((length x =? 0) || (length y =? 0))%nat
    then inl (ValueError "`x` and `y` must be of nonzero size.")
    else inr (p_mwu x y);
  np_mean := mean
|}.

End Double.

(** ** Vocabulary of the properties *)

Inductive Test : Type := TTest | MannWhitneyU.

Definition test_name (t : Test) : string :=
  match t with
  | TTest => "T-test"
  | MannWhitneyU => "Mann-Whitney U test"
  end.

Definition select_test (is_normal_a is_normal_b : bool) : Test :=
  if is_normal_a && is_normal_b then TTest else MannWhitneyU.

Definition run_test (lib : Scipy) (t : Test) (a b : list float)
    : exn + float :=
  match t with
  | TTest => ttest_ind lib a b
  | MannWhitneyU => mannwhitneyu lib a b
  end.

Definition call_of (t : Test) (a b : list float) : Call :=
  match t with
  | TTest => CallTTest a b
  | MannWhitneyU => CallMannWhitney a b
  end.

(** The hypothesis tests among the calls of one invocation. *)
Definition executed_tests (lib : Scipy) (data_a data_b : list float)
    (method : string) : list Call :=
  filter is_hypothesis_test (calls lib data_a data_b method).

Definition names_test (t : Test) (msg : string) : bool :=
  Text.contains (test_name t) msg.

Definition says_A_higher (msg : string) : bool :=
  Text.contains "Group A mean is higher." msg.

Definition says_B_higher (msg : string) : bool :=
  Text.contains "Group B mean is higher." msg.

Definition has_direction (msg : string) : bool :=
  says_A_higher msg || says_B_higher msg.

Definition no_line_break (msg : string) : bool :=
  forallb (fun c => negb (Text.is_line_break c)) (Text.chars msg).

(** A finite float in [0,1]. *)
Definition in_unit_interval (p : float) : bool :=
  is_finite p && PrimFloat.leb 0%float p && PrimFloat.leb p 1%float.

(** [x'] is [x] with NaN entries inserted at arbitrary positions. *)
Inductive nan_inserted : list float -> list float -> Prop :=
| ins_nil : nan_inserted [] []
| ins_keep v x x' : nan_inserted x x' -> nan_inserted (v :: x) (v :: x')
| ins_nan v x x' :
    PrimFloat.is_nan v = true -> nan_inserted x x' -> nan_inserted x (v :: x').

(** What [stats.shapiro] does with fewer than three observations,
    depending on the release of SciPy: it raises a [ValueError], or it
    warns and answers NaN. *)
Definition shapiro_rejects_short (lib : Scipy) : Prop :=
  forall x, (length x < 3)%nat ->
    (exists msg, shapiro lib x = inl (ValueError msg)) \/
    (exists p, shapiro lib x = inr p /\ PrimFloat.is_nan p = true).

(** [stats.shapiro] raises nothing but [ValueError]. *)
Definition shapiro_raises_only_ValueError (lib : Scipy) : Prop :=
  forall x e, shapiro lib x = inl e -> is_ValueError e = true.

(** The diagnostic step fails with a [ValueError]: on the first sample,
    or on the second after the first went through. *)
Definition diagnostic_raises_ValueError (lib : Scipy) (a b : list float)
    : Prop :=
  (exists msg, shapiro lib a = inl (ValueError msg)) \/
  (exists p msg, shapiro lib a = inr p /\ shapiro lib b = inl (ValueError msg)).

(** The non-parametric path: the Mann-Whitney test is the one
    hypothesis test called, and the caller gets what it gives. *)
Definition rank_test_path (lib : Scipy) (data_a data_b : list float)
    (method : string) : Prop :=
  let a := sanitize data_a in
  let b := sanitize data_b in
  executed_tests lib data_a data_b method = [CallMannWhitney a b] /\
  compare_groups lib data_a data_b method =
    match mannwhitneyu lib a b with
    | inl e => inl e
    | inr p => inr (report lib "Mann-Whitney U test" p a b)
    end.

(** The fallback rule as the specification words it: a sample of fewer
    than three observations, like a [ValueError] of the diagnostic,
    leaves both samples classified not-normal and leads to the
    non-parametric path. *)
Definition stated_fallback_rule (lib : Scipy) (data_a data_b : list float)
    (method : string) : Prop :=
  let a := sanitize data_a in
  let b := sanitize data_b in
  ((length a < 3)%nat \/ (length b < 3)%nat \/
   diagnostic_raises_ValueError lib a b) ->
  check_normality lib a b = inr (false, false) /\
  rank_test_path lib data_a data_b method.

Definition is_ComputationError (e : exn) : bool :=
  String.eqb (exn_class e) "ComputationError".

(** The output contract as the specification words it. *)
Definition stated_output_contract (r : Result) : Prop :=
  in_unit_interval (p_value r) = true /\
  message r <> "" /\
  Text.sentences (message r) = 1%nat /\
  no_line_break (message r) = true.

(** A finite value printed by ['.4f']: optional sign, integer digits, a
    point, four digits. *)
Definition four_decimals (s : string) : Prop :=
  exists (neg : bool) (int frac : string),
    s = Format.sign neg ++ int ++ "." ++ frac /\
    int <> "" /\
    forallb Text.is_digit (Text.chars int) = true /\
    String.length frac = 4%nat /\
    forallb Text.is_digit (Text.chars frac) = true.

(** The message, piece by piece: what comes before the p-value and
    what comes after it. *)
Definition verdict (sig : bool) : string :=
  if sig then "Significant difference found (p = "
  else "No significant difference found (p = ".

Definition direction_text (a_higher : bool) : string :=
  if a_higher then "Group A mean is higher." else "Group B mean is higher.".

Definition closing (sig : bool) (t : Test) (a_higher : bool) : string :=
  "). Used " ++ test_name t ++ "." ++
  (if sig then " " ++ direction_text a_higher else "").

Definition message_text (sig : bool) (t : Test) (a_higher : bool)
    (p : float) : string :=
  verdict sig ++ Format.format_4f p ++ closing sig t a_higher.

(** The direction rule as the specification words it: a direction is
    stated exactly when the result is significant, and the group it names
    has the strictly higher mean. *)
Definition stated_direction_rule (lib : Scipy) (data_a data_b : list float)
    (r : Result) : Prop :=
  let mean_a := np_mean lib (sanitize data_a) in
  let mean_b := np_mean lib (sanitize data_b) in
  (has_direction (message r) = true <-> significant r = true) /\
  (says_A_higher (message r) = true -> gt mean_a mean_b = true) /\
  (says_B_higher (message r) = true -> gt mean_b mean_a = true).

(** The failure rule as the specification words it: when the selected
    test raises, the call fails with a [ComputationError]. *)
Definition stated_failure_rule (lib : Scipy) (data_a data_b : list float)
    (method : string) : Prop :=
  forall na nb e,
    check_normality lib (sanitize data_a) (sanitize data_b) = inr (na, nb) ->
    run_test lib (select_test na nb) (sanitize data_a) (sanitize data_b)
      = inl e ->
    exists e', compare_groups lib data_a data_b method = inl e' /\
               is_ComputationError e' = true.

(** ** Concrete runs *)

Module Scenario.

(** Two well separated, roughly normal samples (scenario 1 of the
    specification): both diagnostics pass, the T-test rejects. *)
Definition separated : Scipy :=
  Double.scipy (fun _ => 0.5%float) (fun _ _ => 1e-10%float)
    (fun _ _ => 0.001%float).
Definition separated_a : list float := [10; 11; 9; 10; 12; 11; 10; 9]%float.
Definition separated_b : list float := [20; 21; 19; 22; 20; 21; 19; 20]%float.

(** Equal means, different ranks: nine ones and a minus nine against ten
    zeros.  The first sample is far from normal, and the rank-sum test
    rejects (nine of its values lie above every zero). *)
Definition tie : Scipy :=
  Double.scipy (fun _ => 0.0001%float) (fun _ _ => 1%float)
    (fun _ _ => 0.00075%float).
Definition tie_a : list float := [1; 1; 1; 1; 1; 1; 1; 1; 1; -9]%float.
Definition tie_b : list float := [0; 0; 0; 0; 0; 0; 0; 0; 0; 0]%float.

(** Two identical constant samples (scenario 3): SciPy's Shapiro-Wilk
    reports p = 1 on data of range zero, and its T-test yields NaN on
    zero variance. *)
Definition constant : Scipy :=
  Double.scipy (fun _ => 1%float) (fun _ _ => nan) (fun _ _ => 1%float).
Definition constant_a : list float := [5; 5; 5; 5; 5]%float.

(** Scenario 4: NaN entries at unaligned positions. *)
Definition gappy_a : list float := [1; nan; 3]%float.
Definition gappy_b : list float := [nan; 2; 4]%float.

(** A Shapiro-Wilk that runs out of memory: an exception outside the
    [ValueError] family. *)
Definition exhausted : Scipy := {|
  shapiro := fun _ => inl (OtherError "MemoryError" "");
  ttest_ind := fun _ _ => inr 0.5%float;
  mannwhitneyu := fun _ _ => inr 0.5%float;
  np_mean := Double.mean
|}.

(** A Shapiro-Wilk that answers NaN instead of raising. *)
Definition undecided : Scipy :=
  Double.scipy (fun _ => nan) (fun _ _ => 0.5%float) (fun _ _ => 0.5%float).

(** Hypothesis tests that answer NaN on samples they cannot judge
    instead of raising. *)
Definition exhausted_tests : Scipy :=
  {| shapiro := shapiro separated;
     ttest_ind := fun _ _ => inr nan;
     mannwhitneyu := fun _ _ => inr nan;
     np_mean := Double.mean |}.

(** A Shapiro-Wilk that answers NaN on fewer than three observations
    instead of raising, as recent releases of SciPy do. *)
Definition lenient : Scipy := {|
  shapiro := fun x =>
    if (length x <? 3)%nat then inr nan else inr 0.5%float;
  ttest_ind := fun _ _ => inr 1e-10%float;
  mannwhitneyu := fun _ _ => inr 0.001%float;
  np_mean := Double.mean
|}.

End Scenario.

(** ** Python integers and lists *)

Module Py.

Definition ZeroDivisionError : exn :=
  OtherError "ZeroDivisionError" "integer modulo by zero".
Definition IndexError : exn :=
  OtherError "IndexError" "list index out of range".

Definition len {A : Type} (l : list A) : Z := Z.of_nat (length l).

(** [a % b]: the sign follows the divisor, as [Z.modulo] has it. *)
Definition modulo (a b : Z) : exn + Z :=
  if (b =? 0)%Z then inl ZeroDivisionError else inr (a mod b)%Z.

(** [l[i]]: a negative index counts from the end. *)
Definition getitem {A : Type} (l : list A) (i : Z) : exn + A :=
  let j := if (i <? 0)%Z then (i + len l)%Z else i in
  if (0 <=? j)%Z && (j <? len l)%Z then
    match nth_error l (Z.to_nat j) with
    | Some x => inr x
    | None => inl IndexError
    end
  else inl IndexError.

(** [l[:stop]]: a negative stop counts from the end; out of range stops
    are clipped. *)
Definition slice_to {A : Type} (l : list A) (stop : Z) : list A :=
  firstn (Z.to_nat (if (stop <? 0)%Z then (stop + len l)%Z else stop)) l.

(** [range(n)] *)
Definition range (n : Z) : list Z := map Z.of_nat (seq 0 (Z.to_nat n)).

(** [[f(i) for i in l]]: the first exception ends the comprehension. *)
Fixpoint comprehension {A B : Type} (f : A -> exn + B) (l : list A)
    : exn + list B :=
  match l with
  | [] => inr []
  | x :: l' =>
      y <- f x ;;
      ys <- comprehension f l' ;;
      ret (y :: ys)
  end.

(** [d.get(key, default)] on a dict written as its items. *)
Fixpoint dict_get {V : Type} (d : list (string * V)) (key : string)
    (default : V) : V :=
  match d with
  | [] => default
  | (k, v) :: d' => if String.eqb key k then v else dict_get d' key default
  end.

End Py.

(** ** The colour palette (src/neuro_metrics/colors.py) *)

Module Colors.

Definition SBER_GREEN : string := "#21A038".
Definition SBER_DARK_GREEN : string := "#168A2C".
Definition SBER_LIGHT_GREEN : string := "#3BB54A".
Definition SBER_ORANGE : string := "#FF6B00".
Definition SBER_BLUE : string := "#0E67D7".
Definition SBER_PURPLE : string := "#7B4EA5".
Definition SBER_RED : string := "#E31E24".
Definition SBER_YELLOW : string := "#FFB800".

Definition PALETTE_PRIMARY : list string :=
  [SBER_GREEN; SBER_BLUE; SBER_ORANGE; SBER_PURPLE; SBER_YELLOW; SBER_RED].

Definition PALETTE_SEQUENTIAL_GREEN : list string :=
  ["#E8F5E9"; "#A5D6A7"; "#66BB6A"; "#43A047"; "#2E7D32"; "#1B5E20"].

Definition PALETTE_DIVERGING : list string :=
  ["#E31E24"; "#FF6B00"; "#FFB800"; "#E6E6E6"; "#3BB54A"; "#21A038";
   "#168A2C"].

Definition PALETTE_CATEGORICAL : list string := PALETTE_PRIMARY.

Definition GRADIENT_GREEN : list string := ["#E8F5E9"; "#21A038"; "#168A2C"].
Definition GRADIENT_BLUE : list string := ["#E3F2FD"; "#0E67D7"; "#0D47A1"].
Definition GRADIENT_WARM : list string := ["#FFE0B2"; "#FF6B00"; "#E31E24"].

(** The [palettes] dict of [get_palette]. *)
Definition palettes : list (string * list string) :=
  [("primary", PALETTE_PRIMARY);
   ("sequential", PALETTE_SEQUENTIAL_GREEN);
   ("diverging", PALETTE_DIVERGING);
   ("categorical", PALETTE_CATEGORICAL);
   ("gradient_green", GRADIENT_GREEN);
   ("gradient_blue", GRADIENT_BLUE);
   ("gradient_warm", GRADIENT_WARM)].

(** Lines 96-103 of [get_palette], once [palette] has been looked up. *)
Definition take_colors (palette : list string) (n_colors : option Z)
    : exn + list string :=
  match n_colors with
  | None => inr palette
  | Some n =>
      if (n <=? Py.len palette)%Z then inr (Py.slice_to palette n)
      else
        Py.comprehension
          (fun i => j <- Py.modulo i (Py.len palette) ;; Py.getitem palette j)
          (Py.range n)
  end.

Definition get_palette (name : string) (n_colors : option Z)
    : exn + list string :=
  let palette := Py.dict_get palettes name PALETTE_PRIMARY in
  take_colors palette n_colors.

Definition get_color (index : Z) : exn + string :=
  j <- Py.modulo index (Py.len PALETTE_PRIMARY) ;;
  Py.getitem PALETTE_PRIMARY j.

(** The palette a name stands for. *)
Definition palette_of (name : string) : list string :=
  Py.dict_get palettes name PALETTE_PRIMARY.

(** [n] colours read off [palette] round and round. *)
Definition cycled (palette : list string) (n : nat) : list string :=
  map (fun k => nth (k mod length palette) palette EmptyString) (seq 0 n).

Definition is_hex_digit (c : ascii) : bool :=
  (let n := nat_of_ascii c in
   ((48 <=? n) && (n <=? 57)) || ((65 <=? n) && (n <=? 70)) ||
   ((97 <=? n) && (n <=? 102)))%nat.

(** [#RRGGBB] *)
Definition is_hex_color (s : string) : bool :=
  match s with
  | String "#" t =>
      (String.length t =? 6)%nat && forallb is_hex_digit (Text.chars t)
  | _ => false
  end.

End Colors.

(** The samples a SciPy call is given. *)
Definition call_args (c : Call) : list (list float) :=
  match c with
  | CallShapiro x => [x]
  | CallTTest x y | CallMannWhitney x y => [x; y]
  end.

Definition nan_free (x : list float) : bool :=
  forallb (fun v => negb (PrimFloat.is_nan v)) x.

(** A two-sample test whose p-value does not depend on the order of the
    samples. *)
Definition symmetric (test : list float -> list float -> exn + float)
    : Prop :=
  forall x y, test x y = test y x.

(** * Properties *)

(** ** Text *)

Module TextFacts.
Import Text.

Lemma append_assoc (s t u : string) : (s ++ t) ++ u = s ++ t ++ u.
Proof. induction s as [|c s IH]; simpl; [reflexivity | now rewrite IH]. Qed.

Lemma chars_app (s t : string) : chars (s ++ t) = (chars s ++ chars t)%list.
Proof. induction s as [|c s IH]; simpl; [reflexivity | now rewrite IH]. Qed.

Lemma mem_app (c : ascii) (s t : string) :
  mem c (s ++ t) = mem c s || mem c t.
Proof. unfold mem. now rewrite chars_app, existsb_app. Qed.

Lemma prefix_app (n t : string) : String.prefix n (n ++ t) = true.
Proof.
  induction n as [|c n IH]; simpl.
  - now destruct t.
  - destruct (ascii_dec c c) as [_|ne]; [exact IH | now elim ne].
Qed.

Lemma prefix_mem (n h : string) (c : ascii) :
  String.prefix n h = true -> mem c n = true -> mem c h = true.
Proof.
  revert h. induction n as [|a n IH]; intros h Hp Hc.
  - discriminate.
  - destruct h as [|b h]; [discriminate|].
    simpl in Hp. destruct (ascii_dec a b) as [->|]; [|discriminate].
    unfold mem in *. simpl in *.
    apply orb_true_iff in Hc as [Hc|Hc]; [now rewrite Hc|].
    now rewrite (IH h Hp Hc), orb_true_r.
Qed.

Lemma contains_prefix (n h : string) :
  String.prefix n h = true -> contains n h = true.
Proof. intros H. destruct h; unfold contains; fold contains; now rewrite H. Qed.

Lemma contains_here (n t : string) : contains n (n ++ t) = true.
Proof. apply contains_prefix, prefix_app. Qed.

Lemma contains_skip (n s t : string) :
  contains n t = true -> contains n (s ++ t) = true.
Proof.
  intros H. induction s as [|c s IH]; simpl; [exact H|].
  now rewrite IH, orb_true_r.
Qed.

Lemma contains_mem (n h : string) (c : ascii) :
  contains n h = true -> mem c n = true -> mem c h = true.
Proof.
  induction h as [|b h IH]; simpl; intros H Hc.
  - rewrite orb_false_r in H. now apply (prefix_mem n "").
  - apply orb_true_iff in H as [H|H].
    + now apply (prefix_mem n (String b h)).
    + unfold mem in *. simpl. now rewrite (IH H Hc), orb_true_r.
Qed.

(** A needle with a character the text lacks is not in the text. *)
Lemma contains_absent (n h : string) (c : ascii) :
  mem c n = true -> mem c h = false -> contains n h = false.
Proof.
  intros Hn Hh. destruct (contains n h) eqn:E; [|reflexivity].
  now rewrite (contains_mem _ _ _ E Hn) in Hh.
Qed.

Lemma rstrip_app (s t : string) :
  rstrip t <> "" -> rstrip (s ++ t) = s ++ rstrip t.
Proof.
  intros H. induction s as [|c s IH]; simpl; [reflexivity|].
  rewrite IH. destruct (s ++ rstrip t) eqn:E; [|reflexivity].
  destruct s; simpl in E; [now elim H | discriminate].
Qed.

(** White-space free text followed by a non-space character closes no
    sentence of its own. *)
Lemma sentences_solid (s t : string) (d : ascii) :
  forallb (fun c => negb (is_space c)) (chars s) = true ->
  is_space d = false ->
  sentences (s ++ String d t) = sentences (String d t).
Proof.
  intros Hs Hd. induction s as [|c s IH]; [reflexivity|].
  simpl in Hs. apply andb_true_iff in Hs as [Hc Hs].
  change (sentences (String c s ++ String d t))
    with ((if Ascii.eqb c "." then
             match s ++ String d t with
             | EmptyString => 1
             | String e _ => if is_space e then 1 else 0
             end
           else 0) + sentences (s ++ String d t))%nat.
  rewrite (IH Hs).
  destruct (Ascii.eqb c "."); [|reflexivity].
  destruct s as [|e s]; simpl.
  - now rewrite Hd.
  - simpl in Hs. apply andb_true_iff in Hs as [He _].
    apply negb_true_iff in He. now rewrite He.
Qed.

End TextFacts.

(** ** Formatting *)

Module FormatFacts.
Import Text Format TextFacts.

Lemma digit_is_digit (n : Z) : is_digit (digit n) = true.
Proof.
  unfold digit.
  pose proof (Z.mod_pos_bound n 10 eq_refl) as H.
  assert (Hlt : (Z.to_nat (n mod 10) < 10)%nat) by lia.
  destruct (Z.to_nat (n mod 10)) as [|[|[|[|[|[|[|[|[|[|k]]]]]]]]]];
    try reflexivity; lia.
Qed.

Lemma string_of_uint_digits (d : Decimal.uint) :
  forallb is_digit (chars (NilEmpty.string_of_uint d)) = true.
Proof. induction d; simpl; auto. Qed.

Lemma uint_string_digits (n : Z) :
  forallb is_digit (chars (uint_string n)) = true.
Proof.
  unfold uint_string, NilZero.string_of_uint.
  destruct (N.to_uint (Z.to_N n)) eqn:E; try reflexivity;
    rewrite <- E at 1; apply string_of_uint_digits.
Qed.

Lemma uint_string_nonempty (n : Z) : uint_string n <> "".
Proof.
  unfold uint_string, NilZero.string_of_uint.
  destruct (N.to_uint (Z.to_N n)); simpl; discriminate.
Qed.

Lemma fixed4_shape (n : Z) :
  exists int frac : string,
    fixed4 n = int ++ "." ++ frac /\ int <> "" /\
    forallb is_digit (chars int) = true /\
    String.length frac = 4%nat /\
    forallb is_digit (chars frac) = true.
Proof.
  exists (uint_string (n / 10000)).
  exists (String (digit (n / 1000)) (String (digit (n / 100))
            (String (digit (n / 10)) (String (digit n) EmptyString)))).
  split; [reflexivity|].
  split; [apply uint_string_nonempty|].
  split; [apply uint_string_digits|].
  split; [reflexivity|].
  cbn [chars forallb].
  now rewrite !digit_is_digit.
Qed.

Lemma format_finite (x : float) :
  is_finite x = true -> four_decimals (format_4f x).
Proof.
  unfold is_finite, format_4f, four_decimals.
  destruct (Prim2SF x) as [s|s| |s m e]; try discriminate; intros _.
  - exists s, "0", "0000". repeat split; discriminate.
  - destruct (fixed4_shape (scaled4 m e)) as (int & frac & -> & H).
    exists s, int, frac. split; [reflexivity | exact H].
Qed.

Lemma digits_fmt (s : string) :
  forallb is_digit (chars s) = true -> forallb fmt_char (chars s) = true.
Proof.
  induction s as [|c s IH]; simpl; [reflexivity|].
  intros H. apply andb_true_iff in H as [Hc Hs].
  unfold fmt_char at 1. now rewrite Hc, (IH Hs).
Qed.

Lemma sign_fmt (s : bool) : forallb fmt_char (chars (sign s)) = true.
Proof. now destruct s. Qed.

(** Whatever the float, ['.4f'] prints only characters of [fmt_char]. *)
Lemma format_chars (x : float) :
  forallb fmt_char (chars (format_4f x)) = true.
Proof.
  unfold format_4f.
  destruct (Prim2SF x) as [s|s| |s m e];
    rewrite ?chars_app, ?forallb_app, ?sign_fmt; try reflexivity.
  destruct (fixed4_shape (scaled4 m e)) as (int & frac & -> & _ & Hi & _ & Hf).
  rewrite !chars_app, !forallb_app, (digits_fmt _ Hi), (digits_fmt _ Hf).
  reflexivity.
Qed.

(** Consequences for a predicate that holds of every printable
    character. *)
Lemma format_forall (P : ascii -> bool) (x : float) :
  (forall c, fmt_char c = true -> P c = true) ->
  forallb P (chars (format_4f x)) = true.
Proof.
  intros HP. pose proof (format_chars x) as H.
  induction (chars (format_4f x)) as [|c l IH]; simpl in *; [reflexivity|].
  apply andb_true_iff in H as [Hc Hl]. now rewrite (HP c Hc), (IH Hl).
Qed.

Lemma fmt_char_cases (c : ascii) :
  fmt_char c = true ->
  is_digit c = true \/ c = "."%char \/ c = "-"%char \/ c = "n"%char \/
  c = "a"%char \/ c = "i"%char \/ c = "f"%char.
Proof.
  unfold fmt_char, mem. simpl. intros H.
  repeat (apply orb_true_iff in H as [H|H]);
    try (apply Ascii.eqb_eq in H; subst; tauto); [tauto | discriminate].
Qed.

(** The printed form of some values, as CPython prints them. *)
Example format_tie_to_even : format_4f 0.03125%float = "0.0312".
Proof. vm_compute. reflexivity. Qed.
Example format_round_up : format_4f 0.00075%float = "0.0008".
Proof. vm_compute. reflexivity. Qed.
Example format_tiny : format_4f 1e-10%float = "0.0000".
Proof. vm_compute. reflexivity. Qed.
Example format_alpha : format_4f 0.05%float = "0.0500".
Proof. vm_compute. reflexivity. Qed.
Example format_half_above : format_4f 5e-05%float = "0.0001".
Proof. vm_compute. reflexivity. Qed.
Example format_half_below : format_4f 0.00015%float = "0.0001".
Proof. vm_compute. reflexivity. Qed.
Example format_carry : format_4f 0.99995%float = "1.0000".
Proof. vm_compute. reflexivity. Qed.
Example format_no_carry : format_4f 0.999949999%float = "0.9999".
Proof. vm_compute. reflexivity. Qed.
Example format_negative_zero : format_4f (-1e-05)%float = "-0.0000".
Proof. vm_compute. reflexivity. Qed.
Example format_large : format_4f 12345.678951%float = "12345.6790".
Proof. vm_compute. reflexivity. Qed.
Example format_quarter : format_4f 2.5e-05%float = "0.0000".
Proof. vm_compute. reflexivity. Qed.
Example format_huge : format_4f 1e22%float = "10000000000000000000000.0000".
Proof. vm_compute. reflexivity. Qed.
Example format_nan : format_4f nan = "nan".
Proof. vm_compute. reflexivity. Qed.
Example format_inf : format_4f infinity = "inf".
Proof. vm_compute. reflexivity. Qed.
Example format_minus_zero : format_4f (-0)%float = "-0.0000".
Proof. vm_compute. reflexivity. Qed.

End FormatFacts.

(** ** The program as the caller observes it *)

Section Observed.

Variable lib : Scipy.

(** The [try] block, case by case. *)
Lemma check_normality_eq (a b : list float) :
  check_normality lib a b =
  match shapiro lib a with
  | inl (ValueError _) => inr (false, false)
  | inl e => inl e
  | inr pa =>
      match shapiro lib b with
      | inl (ValueError _) => inr (false, false)
      | inl e => inl e
      | inr pb => inr (ge pa ALPHA, ge pb ALPHA)
      end
  end.
Proof.
  unfold check_normality. cbn.
  destruct (shapiro lib a) as [[?|? ?]|pa]; try reflexivity.
  destruct (shapiro lib b) as [[?|? ?]|pb]; reflexivity.
Qed.

Lemma decide_on_test_eq (na nb : bool) (a b : list float) :
  decide_on_test lib na nb a b =
  match run_test lib (select_test na nb) a b with
  | inl e => inl e
  | inr p => inr (test_name (select_test na nb), p)
  end.
Proof.
  unfold decide_on_test, select_test, run_test.
  destruct (na && nb); cbn;
    [destruct (ttest_ind lib a b) | destruct (mannwhitneyu lib a b)];
    reflexivity.
Qed.

(** One invocation: diagnose, run the selected test, report. *)
Lemma compare_groups_eq (data_a data_b : list float) (method : string) :
  compare_groups lib data_a data_b method =
  match check_normality lib (sanitize data_a) (sanitize data_b) with
  | inl e => inl e
  | inr (na, nb) =>
      match run_test lib (select_test na nb)
              (sanitize data_a) (sanitize data_b) with
      | inl e => inl e
      | inr p =>
          inr (report lib (test_name (select_test na nb)) p
                 (sanitize data_a) (sanitize data_b))
      end
  end.
Proof.
  unfold compare_groups.
  change (@bind (sum exn) _) with
    (fun (A B : Type) (c : exn + A) (f : A -> exn + B) =>
       match c with inl e => inl e | inr v => f v end).
  cbv beta.
  destruct (check_normality lib (sanitize data_a) (sanitize data_b))
    as [e|[na nb]]; [reflexivity|].
  rewrite decide_on_test_eq.
  destruct (run_test lib (select_test na nb) (sanitize data_a)
              (sanitize data_b)); reflexivity.
Qed.

End Observed.

(** ** The message *)

Section Message.
Import Text Format TextFacts FormatFacts.

Variable lib : Scipy.

Lemma strip_framed (s f t : string) :
  (exists c s', s = String c s' /\ is_space c = false) ->
  rstrip t <> "" ->
  strip ((s ++ f) ++ t) = (s ++ f) ++ rstrip t.
Proof.
  intros (c & s' & -> & Hc) Ht. unfold strip.
  cbn [append lstrip]. rewrite Hc.
  exact (rstrip_app (String c (s' ++ f)) t Ht).
Qed.

Lemma regroup (s f u v : string) : (s ++ f ++ u) ++ v = (s ++ f) ++ u ++ v.
Proof. now rewrite !append_assoc. Qed.

(** The text of the message: verdict, p-value to four places, the test
    used, and the direction when significant. *)
Lemma report_message (t : Test) (p : float) (a b : list float) :
  message (report lib (test_name t) p a b) =
  verdict (lt p ALPHA) ++ format_4f p ++
  closing (lt p ALPHA) t (gt (np_mean lib a) (np_mean lib b)).
Proof.
  unfold report, verdict, closing, direction_text.
  destruct (lt p ALPHA), t, (gt (np_mean lib a) (np_mean lib b));
    cbn [message test_name];
    rewrite regroup, strip_framed, append_assoc;
    try reflexivity; try discriminate;
    eexists _, _; split; reflexivity.
Qed.

Lemma report_p_value (name : string) (p : float) (a b : list float) :
  p_value (report lib name p a b) = p.
Proof. unfold report. now destruct (lt p ALPHA). Qed.

Lemma report_significant (name : string) (p : float) (a b : list float) :
  significant (report lib name p a b) = lt p ALPHA.
Proof. unfold report. now destruct (lt p ALPHA). Qed.

End Message.

(** ** What the message does and does not contain *)

Module MessageFacts.
Import Text Format TextFacts FormatFacts.

Lemma fmt_not_space (c : ascii) :
  fmt_char c = true -> negb (is_space c) = true.
Proof.
  intros H. destruct (fmt_char_cases c H) as [Hd|Hc].
  - unfold is_digit, is_space in *. cbv zeta in *.
    apply andb_true_iff in Hd as [H1 H2].
    apply Nat.leb_le in H1, H2. apply negb_true_iff, orb_false_iff.
    split; apply andb_false_iff.
    + right. apply Nat.leb_gt. lia.
    + right. apply Nat.leb_gt. lia.
  - repeat (destruct Hc as [->|Hc]; [reflexivity|]). now subst.
Qed.

Lemma fmt_not_line_break (c : ascii) :
  fmt_char c = true -> negb (is_line_break c) = true.
Proof.
  intros H. destruct (fmt_char_cases c H) as [Hd|Hc].
  - unfold is_digit, is_line_break in *. cbv zeta in *.
    apply andb_true_iff in Hd as [H1 H2].
    apply Nat.leb_le in H1, H2. apply negb_true_iff, orb_false_iff.
    split; apply andb_false_iff.
    + right. apply Nat.leb_gt. lia.
    + right. apply Nat.leb_gt. lia.
  - repeat (destruct Hc as [->|Hc]; [reflexivity|]). now subst.
Qed.

(** A character ['.4f'] never prints is not in the printed value. *)
Lemma mem_format (c : ascii) (p : float) :
  fmt_char c = false -> mem c (format_4f p) = false.
Proof.
  intros Hc. unfold mem. pose proof (format_chars p) as H.
  induction (chars (format_4f p)) as [|d l IH]; [reflexivity|].
  simpl in *. apply andb_true_iff in H as [Hd Hl].
  rewrite (IH Hl), orb_false_r.
  destruct (Ascii.eqb_spec c d) as [->|]; [congruence | reflexivity].
Qed.

Lemma sentences_nodot (s t : string) :
  mem "." s = false -> sentences (s ++ t) = sentences t.
Proof.
  unfold mem. induction s as [|c s IH]; [reflexivity|].
  cbn [chars existsb]. intros H. apply orb_false_iff in H as [Hc Hs].
  change (sentences (String c s ++ t))
    with ((if Ascii.eqb c "." then
             match s ++ t with
             | EmptyString => 1
             | String e _ => if is_space e then 1 else 0
             end
           else 0) + sentences (s ++ t))%nat.
  rewrite Ascii.eqb_sym, Hc, (IH Hs). reflexivity.
Qed.

Lemma mem_message (sig : bool) (t : Test) (a_higher : bool) (p : float)
    (c : ascii) :
  fmt_char c = false ->
  mem c (message_text sig t a_higher p) =
  mem c (verdict sig) || mem c (closing sig t a_higher).
Proof.
  intros H. unfold message_text. now rewrite !mem_app, (mem_format c p H).
Qed.

Lemma message_names_test (sig : bool) (t : Test) (a_higher : bool)
    (p : float) (t' : Test) :
  names_test t' (message_text sig t a_higher p) = true <-> t' = t.
Proof.
  unfold names_test. split.
  - intros H. destruct t', t; try reflexivity; exfalso.
    + rewrite (@contains_absent _ _ "T") in H;
        [discriminate | reflexivity|].
      rewrite mem_message by reflexivity. now destruct sig, a_higher.
    + rewrite (@contains_absent _ _ "M") in H;
        [discriminate | reflexivity|].
      rewrite mem_message by reflexivity. now destruct sig, a_higher.
  - intros ->. unfold message_text, closing.
    do 2 apply contains_skip.
    apply (contains_skip _ "). Used "), contains_here.
Qed.

Lemma message_says_A (sig : bool) (t : Test) (a_higher : bool) (p : float) :
  says_A_higher (message_text sig t a_higher p) = sig && a_higher.
Proof.
  unfold says_A_higher.
  destruct sig; [destruct a_higher|]; cbn [andb].
  - unfold message_text, closing, direction_text.
    do 5 apply contains_skip. reflexivity.
  - apply (@contains_absent _ _ "A"); [reflexivity|].
    rewrite mem_message by reflexivity. now destruct t.
  - apply (@contains_absent _ _ "G"); [reflexivity|].
    rewrite mem_message by reflexivity. now destruct t, a_higher.
Qed.

Lemma message_says_B (sig : bool) (t : Test) (a_higher : bool) (p : float) :
  says_B_higher (message_text sig t a_higher p) = sig && negb a_higher.
Proof.
  unfold says_B_higher.
  destruct sig; [destruct a_higher|]; cbn [andb negb].
  - apply (@contains_absent _ _ "B"); [reflexivity|].
    rewrite mem_message by reflexivity. now destruct t.
  - unfold message_text, closing, direction_text.
    do 5 apply contains_skip. reflexivity.
  - apply (@contains_absent _ _ "G"); [reflexivity|].
    rewrite mem_message by reflexivity. now destruct t, a_higher.
Qed.

(** Two sentences, and a third for the direction. *)
Lemma message_sentences (sig : bool) (t : Test) (a_higher : bool)
    (p : float) :
  sentences (message_text sig t a_higher p) = if sig then 3%nat else 2%nat.
Proof.
  unfold message_text.
  rewrite sentences_nodot by now destruct sig.
  change (closing sig t a_higher)
    with (String ")" (". Used " ++ test_name t ++ "." ++
            (if sig then " " ++ direction_text a_higher else ""))).
  rewrite sentences_solid;
    [| apply format_forall, fmt_not_space | reflexivity].
  now destruct sig, t, a_higher.
Qed.

Lemma message_no_line_break (sig : bool) (t : Test) (a_higher : bool)
    (p : float) :
  no_line_break (message_text sig t a_higher p) = true.
Proof.
  unfold no_line_break, message_text.
  rewrite !chars_app, !forallb_app.
  rewrite (format_forall _ p fmt_not_line_break).
  now destruct sig, t, a_higher.
Qed.

Lemma message_nonempty (sig : bool) (t : Test) (a_higher : bool)
    (p : float) :
  message_text sig t a_higher p <> "".
Proof. unfold message_text. now destruct sig. Qed.

End MessageFacts.

(** ** A returned result, and the calls behind it *)

Section Invocation.

Variable lib : Scipy.

Lemma returned_inv (data_a data_b : list float) (method : string)
    (r : Result) :
  compare_groups lib data_a data_b method = inr r ->
  exists na nb p,
    check_normality lib (sanitize data_a) (sanitize data_b) = inr (na, nb) /\
    run_test lib (select_test na nb) (sanitize data_a) (sanitize data_b)
      = inr p /\
    r = report lib (test_name (select_test na nb)) p
          (sanitize data_a) (sanitize data_b).
Proof.
  rewrite compare_groups_eq.
  destruct (check_normality lib _ _) as [e|[na nb]]; [discriminate|].
  destruct (run_test lib _ _ _) as [e|p] eqn:Ht; [discriminate|].
  intros [= <-]. now exists na, nb, p.
Qed.

(** The verdicts the [try] block leaves behind agree, taken together,
    with the two samples' own classifications. *)
Lemma check_normality_verdict (a b : list float) (na nb : bool) :
  check_normality lib a b = inr (na, nb) ->
  na && nb = classified_normal lib a && classified_normal lib b.
Proof.
  rewrite check_normality_eq. unfold classified_normal.
  destruct (shapiro lib a) as [[?|? ?]|pa]; try discriminate.
  - now intros [= <- <-].
  - destruct (shapiro lib b) as [[?|? ?]|pb]; try discriminate;
      intros [= <- <-]; [symmetry; apply andb_false_r | reflexivity].
Qed.

Lemma check_normality_total (a b : list float) :
  shapiro_raises_only_ValueError lib ->
  exists na nb, check_normality lib a b = inr (na, nb).
Proof.
  intros Hc. rewrite check_normality_eq.
  destruct (shapiro lib a) as [[?|? ?]|pa] eqn:Ea; eauto.
  - now apply Hc in Ea.
  - destruct (shapiro lib b) as [[?|? ?]|pb] eqn:Eb; eauto.
    now apply Hc in Eb.
Qed.

(** The hypothesis tests called: the selected one, once, whenever the
    diagnostic step gets through. *)
Lemma executed_tests_eq (data_a data_b : list float) (method : string) :
  executed_tests lib data_a data_b method =
  match check_normality lib (sanitize data_a) (sanitize data_b) with
  | inl _ => []
  | inr (na, nb) =>
      [call_of (select_test na nb) (sanitize data_a) (sanitize data_b)]
  end.
Proof.
  rewrite check_normality_eq.
  unfold executed_tests, calls, run, compare_groups, check_normality,
    decide_on_test, logged, log_call.
  cbn.
  destruct (shapiro lib (sanitize data_a)) as [[?|? ?]|pa]; cbn.
  - destruct (mannwhitneyu lib _ _); reflexivity.
  - reflexivity.
  - destruct (shapiro lib (sanitize data_b)) as [[?|? ?]|pb]; cbn.
    + destruct (mannwhitneyu lib _ _); reflexivity.
    + reflexivity.
    + unfold select_test.
      match goal with |- context [if ?c then _ else _] => destruct c end;
        cbn;
        [destruct (ttest_ind lib _ _) | destruct (mannwhitneyu lib _ _)];
        reflexivity.
Qed.

(** The logging library changes nothing in what the caller observes. *)
Lemma logged_observes (data_a data_b : list float) (method : string)
    (w : list Call) :
  fst (run (compare_groups (logged lib) data_a data_b method) w) =
  compare_groups lib data_a data_b method.
Proof.
  unfold run, compare_groups, check_normality, decide_on_test, logged,
    log_call.
  cbn.
  destruct (shapiro lib (sanitize data_a)) as [[?|? ?]|pa]; cbn.
  - destruct (mannwhitneyu lib _ _); reflexivity.
  - reflexivity.
  - destruct (shapiro lib (sanitize data_b)) as [[?|? ?]|pb]; cbn.
    + destruct (mannwhitneyu lib _ _); reflexivity.
    + reflexivity.
    + match goal with |- context [if ?c then _ else _] => destruct c end;
        cbn;
        [destruct (ttest_ind lib _ _) | destruct (mannwhitneyu lib _ _)];
        reflexivity.
Qed.

End Invocation.

(** ** NaN *)

Module FloatFacts.

Lemma SFcompare_refl (f : spec_float) :
  f <> S754_nan -> SFcompare f f = Some Eq.
Proof.
  destruct f as [s|s| |s m e]; intros H; try reflexivity.
  - now destruct s.
  - now elim H.
  - cbn. rewrite Z.compare_refl, Pos.compare_cont_refl.
    now destruct s.
Qed.

Lemma is_nan_spec (x : float) :
  PrimFloat.is_nan x = true -> Prim2SF x = S754_nan.
Proof.
  unfold PrimFloat.is_nan. rewrite FloatAxioms.eqb_spec. unfold SFeqb.
  intros H. destruct (Prim2SF x) as [s|s| |s m e] eqn:E; [| |reflexivity|];
    rewrite SFcompare_refl in H by discriminate; discriminate.
Qed.

Lemma nan_not_lt (x y : float) : PrimFloat.is_nan x = true -> lt x y = false.
Proof.
  intros H. unfold lt. rewrite FloatAxioms.ltb_spec, (is_nan_spec _ H).
  reflexivity.
Qed.

Lemma nan_not_ge (x y : float) : PrimFloat.is_nan x = true -> ge x y = false.
Proof.
  intros H. unfold ge. rewrite FloatAxioms.leb_spec, (is_nan_spec _ H).
  unfold SFleb. now destruct (Prim2SF y).
Qed.

Lemma nan_format (x : float) :
  PrimFloat.is_nan x = true -> Format.format_4f x = "nan".
Proof.
  intros H. unfold Format.format_4f. now rewrite (is_nan_spec _ H).
Qed.

End FloatFacts.

(** ** The stand-in library keeps SciPy's contract *)

Lemma double_rejects_short p_shapiro p_ttest p_mwu :
  shapiro_rejects_short (Double.scipy p_shapiro p_ttest p_mwu).
Proof.
  intros x Hx. unfold Double.scipy. cbn [shapiro].
  apply Nat.ltb_lt in Hx. rewrite Hx. left. eauto.
Qed.

Lemma lenient_rejects_short : shapiro_rejects_short Scenario.lenient.
Proof.
  intros x Hx. unfold Scenario.lenient. cbn [shapiro].
  apply Nat.ltb_lt in Hx. rewrite Hx. right. now exists nan.
Qed.

Lemma lenient_only_ValueError :
  shapiro_raises_only_ValueError Scenario.lenient.
Proof.
  intros x e. unfold Scenario.lenient. cbn [shapiro].
  destruct (length x <? 3)%nat; discriminate.
Qed.

Lemma double_only_ValueError p_shapiro p_ttest p_mwu :
  shapiro_raises_only_ValueError (Double.scipy p_shapiro p_ttest p_mwu).
Proof.
  intros x e. unfold Double.scipy. cbn [shapiro].
  destruct (length x <? 3)%nat; intros [= <-]. reflexivity.
Qed.

(** * The claims *)

(** ** Test selection *)

(** C1.  With SciPy's Shapiro-Wilk raising nothing but [ValueError], one
    invocation calls exactly one hypothesis test on the sanitized
    samples: the independent T-test if and only if each sample is
    classified normal on its own (Shapiro-Wilk ran on it and gave
    p >= 0.05), the Mann-Whitney rank-sum test in every other case; and
    the message of a returned result names that test and not the
    other. *)
Theorem test_selection (lib : Scipy) (data_a data_b : list float)
    (method : string) :
  shapiro_raises_only_ValueError lib ->
  let a := sanitize data_a in
  let b := sanitize data_b in
  let both_normal := classified_normal lib a && classified_normal lib b in
  executed_tests lib data_a data_b method =
    [if both_normal then CallTTest a b else CallMannWhitney a b] /\
  forall r, compare_groups lib data_a data_b method = inr r ->
    (names_test TTest (message r) = true <-> both_normal = true) /\
    (names_test MannWhitneyU (message r) = true <-> both_normal = false).
Proof.
  intros Hc a b both_normal.
  destruct (check_normality_total (lib:=lib) a b Hc) as (na & nb & Hn).
  pose proof (check_normality_verdict _ _ _ Hn) as Hv.
  fold both_normal in Hv. split.
  - rewrite executed_tests_eq. fold a b. rewrite Hn.
    unfold select_test. rewrite Hv. now destruct both_normal.
  - intros r Hr. apply returned_inv in Hr as (na' & nb' & p & Hn' & _ & ->).
    fold a b in Hn'. rewrite Hn in Hn'. injection Hn' as <- <-.
    rewrite report_message.
    fold (message_text (lt p ALPHA) (select_test na nb)
            (gt (np_mean lib (sanitize data_a)) (np_mean lib (sanitize data_b)))
            p).
    rewrite !MessageFacts.message_names_test.
    unfold select_test. rewrite Hv.
    destruct both_normal; split; split; congruence.
Qed.

Lemma test_selection_witness :
  shapiro_raises_only_ValueError Scenario.separated /\
  executed_tests Scenario.separated Scenario.separated_a Scenario.separated_b
    "t-test"
  = [CallTTest Scenario.separated_a Scenario.separated_b].
Proof.
  split.
  - apply double_only_ValueError.
  - exact (proj1 (test_selection Scenario.separated_a Scenario.separated_b
                    "t-test" (double_only_ValueError _ _ _))).
Defined.

(** ** The diagnostic's failures are absorbed *)

(** C2, as the code has it.  Whenever the diagnostic raises a
    [ValueError], on the first sample or on the second, the [try] block
    returns with both samples not-normal and the non-parametric path is
    taken: the Mann-Whitney test is the one test called and the caller
    gets what it gives.  Whenever a sanitized sample has fewer than
    three observations, with a Shapiro-Wilk that either raises a
    [ValueError] or answers NaN for such a sample and raises nothing
    but [ValueError], the diagnostic step returns, the two samples are
    not both classified normal, and the non-parametric path is taken as
    well.  In neither case does an error of the diagnostic reach the
    caller. *)
Theorem diagnostic_failure_absorbed (lib : Scipy)
    (data_a data_b : list float) (method : string) :
  let a := sanitize data_a in
  let b := sanitize data_b in
  (diagnostic_raises_ValueError lib a b ->
   check_normality lib a b = inr (false, false) /\
   rank_test_path lib data_a data_b method) /\
  (shapiro_rejects_short lib ->
   shapiro_raises_only_ValueError lib ->
   (length a < 3)%nat \/ (length b < 3)%nat ->
   (exists na nb,
      check_normality lib a b = inr (na, nb) /\ na && nb = false) /\
   rank_test_path lib data_a data_b method).
Proof.
  intros a b.
  assert (Hpath : forall na nb,
            check_normality lib a b = inr (na, nb) -> na && nb = false ->
            rank_test_path lib data_a data_b method).
  { intros na nb Hn Hf. unfold rank_test_path. fold a b. split.
    - rewrite executed_tests_eq. fold a b. rewrite Hn.
      unfold select_test. now rewrite Hf.
    - rewrite compare_groups_eq. fold a b. rewrite Hn.
      unfold select_test. now rewrite Hf. }
  split.
  - intros Hd.
    assert (Hn : check_normality lib a b = inr (false, false)).
    { rewrite check_normality_eq.
      destruct Hd as [(msg & Ha)|(p & msg & Ha & Hb)];
        [now rewrite Ha | now rewrite Ha, Hb]. }
    split; [exact Hn | now apply (Hpath false false)].
  - intros Hshort Hc Hlen.
    assert (Hn : exists na nb,
               check_normality lib a b = inr (na, nb) /\ na && nb = false).
    { rewrite check_normality_eq.
      destruct (shapiro lib a) as [[ma|ca ma]|pa] eqn:Ea.
      - now exists false, false.
      - now apply Hc in Ea.
      - destruct (shapiro lib b) as [[mb|cb mb]|pb] eqn:Eb.
        + now exists false, false.
        + now apply Hc in Eb.
        + exists (ge pa ALPHA), (ge pb ALPHA). split; [reflexivity|].
          destruct Hlen as [Hl|Hl]; apply Hshort in Hl;
            destruct Hl as [(msg & Hl)|(p & Hl & Hnan)]; try congruence.
          * assert (pa = p) by congruence. subst pa.
            now rewrite (FloatFacts.nan_not_ge _ ALPHA Hnan).
          * assert (pb = p) by congruence. subst pb.
            rewrite (FloatFacts.nan_not_ge _ ALPHA Hnan).
            apply andb_false_r. }
    split; [exact Hn|].
    destruct Hn as (na & nb & Hn & Hf). now apply (Hpath na nb).
Qed.

Lemma diagnostic_failure_absorbed_witness :
  (length (sanitize [1; nan; 3]%float) < 3)%nat /\
  compare_groups Scenario.lenient [1; nan; 3]%float Scenario.separated_b
    "t-test"
  = inr (mkResult 0.001%float true
           "Significant difference found (p = 0.0010). Used Mann-Whitney U test. Group B mean is higher.") /\
  check_normality Scenario.separated (sanitize [1; nan; 3]%float)
    (sanitize [nan; 2; 4]%float) = inr (false, false).
Proof.
  split; [vm_compute; lia|]. split.
  - exact (proj2 (proj2
      (proj2 (@diagnostic_failure_absorbed Scenario.lenient
                [1; nan; 3]%float Scenario.separated_b "t-test")
         lenient_rejects_short lenient_only_ValueError
         (or_introl (Nat.lt_succ_diag_r 2))))).
  - exact (proj1
      (proj1 (@diagnostic_failure_absorbed Scenario.separated
                [1; nan; 3]%float [nan; 2; 4]%float "t-test")
         (or_introl (ex_intro _ "Data must be at least length 3." eq_refl)))).
Defined.

(** A first sample of two observations, with a Shapiro-Wilk that
    answers NaN for it: the diagnostic step returns with the second
    sample classified normal, so not both samples are classified
    not-normal, whereas the rule as worded has them both so. *)
Lemma fallback_short_sample_counterexample :
  check_normality Scenario.lenient (sanitize [1; 2]%float)
    (sanitize Scenario.separated_b) = inr (false, true) /\
  ~ stated_fallback_rule Scenario.lenient [1; 2]%float Scenario.separated_b
      "t-test".
Proof.
  split; [vm_compute; reflexivity|].
  intros H. destruct H as [H _]; [left; vm_compute; lia|].
  vm_compute in H. discriminate H.
Qed.

(** ** Significance *)

(** C3.  In every returned result [significant] is [p_value < 0.05],
    with the constant 0.05 of the source. *)
Theorem threshold_consistency (lib : Scipy) (data_a data_b : list float)
    (method : string) (r : Result) :
  compare_groups lib data_a data_b method = inr r ->
  significant r = lt (p_value r) ALPHA /\ ALPHA = 0.05%float.
Proof.
  intros Hr. apply returned_inv in Hr as (na & nb & p & _ & _ & ->).
  now rewrite report_significant, report_p_value.
Qed.

Lemma threshold_consistency_witness :
  significant
    (mkResult 1e-10%float true
       "Significant difference found (p = 0.0000). Used T-test. Group B mean is higher.")
  = lt 1e-10%float ALPHA.
Proof.
  exact (proj1 (threshold_consistency Scenario.separated
                  Scenario.separated_a Scenario.separated_b "t-test"
                  eq_refl)).
Defined.

(** ** Direction *)

Lemma returned_message (lib : Scipy) (data_a data_b : list float)
    (method : string) (r : Result) :
  compare_groups lib data_a data_b method = inr r ->
  exists t,
    run_test lib t (sanitize data_a) (sanitize data_b) = inr (p_value r) /\
    significant r = lt (p_value r) ALPHA /\
    message r =
      message_text (significant r) t
        (gt (np_mean lib (sanitize data_a)) (np_mean lib (sanitize data_b)))
        (p_value r).
Proof.
  intros Hr. apply returned_inv in Hr as (na & nb & p & _ & Ht & ->).
  exists (select_test na nb).
  now rewrite report_message, report_significant, report_p_value.
Qed.

(** C4, as the code has it.  In every returned result the message states
    a direction exactly when [significant] holds; it then names group A
    when the mean of sanitized A is strictly greater than that of
    sanitized B, and group B in every other case, a tie included. *)
Theorem direction_rule (lib : Scipy) (data_a data_b : list float)
    (method : string) (r : Result) :
  compare_groups lib data_a data_b method = inr r ->
  let mean_a := np_mean lib (sanitize data_a) in
  let mean_b := np_mean lib (sanitize data_b) in
  has_direction (message r) = significant r /\
  says_A_higher (message r) = significant r && gt mean_a mean_b /\
  says_B_higher (message r) = significant r && negb (gt mean_a mean_b).
Proof.
  intros Hr mean_a mean_b.
  destruct (@returned_message _ _ _ _ _ Hr) as (t & _ & _ & ->).
  unfold has_direction.
  rewrite MessageFacts.message_says_A, MessageFacts.message_says_B.
  fold mean_a mean_b.
  repeat split. now destruct (significant r), (gt mean_a mean_b).
Qed.

Lemma direction_rule_witness :
  says_B_higher
    "Significant difference found (p = 0.0000). Used T-test. Group B mean is higher."
  = true.
Proof.
  exact (proj2 (proj2 (direction_rule Scenario.separated
                         Scenario.separated_a Scenario.separated_b "t-test"
                         eq_refl))).
Defined.

(** The rule as the specification words it fails on a tie: the result is
    significant, the two means are both 0, and the message names
    group B. *)
Lemma direction_rule_tie_counterexample :
  exists r,
    compare_groups Scenario.tie Scenario.tie_a Scenario.tie_b "t-test"
      = inr r /\
    ~ stated_direction_rule Scenario.tie Scenario.tie_a Scenario.tie_b r.
Proof.
  eexists. split; [vm_compute; reflexivity|].
  intros (_ & _ & HB).
  assert (H : says_B_higher
                "Significant difference found (p = 0.0008). Used Mann-Whitney U test. Group B mean is higher."
              = true) by (vm_compute; reflexivity).
  specialize (HB H). vm_compute in HB. discriminate HB.
Qed.

(** C10.  When a returned result is significant and the mean of
    sanitized A is not strictly greater than that of sanitized B, equal
    means included, the message states that group B's mean is higher,
    and does not state it of group A. *)
Theorem tie_break_names_B (lib : Scipy) (data_a data_b : list float)
    (method : string) (r : Result) :
  compare_groups lib data_a data_b method = inr r ->
  significant r = true ->
  gt (np_mean lib (sanitize data_a)) (np_mean lib (sanitize data_b)) = false ->
  says_B_higher (message r) = true /\ says_A_higher (message r) = false.
Proof.
  intros Hr Hs Hg.
  destruct (@returned_message _ _ _ _ _ Hr) as (t & _ & _ & ->).
  rewrite MessageFacts.message_says_A, MessageFacts.message_says_B, Hs, Hg.
  split; reflexivity.
Qed.

Lemma tie_break_names_B_witness :
  says_B_higher
    "Significant difference found (p = 0.0008). Used Mann-Whitney U test. Group B mean is higher."
  = true.
Proof.
  exact (proj1 (tie_break_names_B Scenario.tie Scenario.tie_a Scenario.tie_b
                  "t-test" eq_refl eq_refl eq_refl)).
Defined.

(** ** Sanitisation *)

Lemma sanitize_nan_inserted (x x' : list float) :
  nan_inserted x x' -> sanitize x' = sanitize x.
Proof.
  induction 1 as [|v x x' _ IH|v x x' Hv _ IH]; cbn [sanitize filter].
  - reflexivity.
  - fold (sanitize x) (sanitize x'). now rewrite IH.
  - fold (sanitize x'). now rewrite Hv.
Qed.

Lemma nan_inserted_refl (x : list float) : nan_inserted x x.
Proof. induction x; constructor; assumption. Qed.

(** Dropping the NaN entries is itself a removal of inserted NaNs. *)
Lemma nan_inserted_sanitize (x : list float) : nan_inserted (sanitize x) x.
Proof.
  induction x as [|v x IH]; cbn [sanitize filter]; [constructor|].
  fold (sanitize x). destruct (PrimFloat.is_nan v) eqn:Hv; cbn [negb].
  - now apply ins_nan.
  - now apply ins_keep.
Qed.

(** C5.  Inserting NaN entries at any positions of either input gives
    the same outcome (the same p_value, significant and message, or the
    same failure) as the inputs without them; the insertions in the two
    samples are independent of each other, and the samples may differ in
    length. *)
Theorem nan_insertion_invariant (lib : Scipy)
    (data_a data_a' data_b data_b' : list float) (method : string) :
  nan_inserted data_a data_a' ->
  nan_inserted data_b data_b' ->
  compare_groups lib data_a' data_b' method =
  compare_groups lib data_a data_b method.
Proof.
  intros Ha Hb. rewrite !compare_groups_eq.
  now rewrite (sanitize_nan_inserted Ha), (sanitize_nan_inserted Hb).
Qed.

Lemma nan_insertion_invariant_witness :
  compare_groups Scenario.separated Scenario.gappy_a Scenario.gappy_b "t-test"
  = compare_groups Scenario.separated [1; 3]%float [2; 4]%float "t-test".
Proof.
  apply (@nan_insertion_invariant Scenario.separated
           [1; 3]%float Scenario.gappy_a [2; 4]%float Scenario.gappy_b).
  - apply ins_keep, ins_nan; [reflexivity|]. apply ins_keep, ins_nil.
  - apply ins_nan; [reflexivity|]. apply ins_keep, ins_keep, ins_nil.
Defined.

(** ** Failure of the selected test *)

(** C6, as the code has it.  When the selected hypothesis test raises,
    the whole call fails with that very exception, unchanged, and no
    result is returned. *)
Theorem test_failure_propagates (lib : Scipy) (data_a data_b : list float)
    (method : string) (na nb : bool) (e : exn) :
  check_normality lib (sanitize data_a) (sanitize data_b) = inr (na, nb) ->
  run_test lib (select_test na nb) (sanitize data_a) (sanitize data_b)
    = inl e ->
  compare_groups lib data_a data_b method = inl e /\
  forall r, compare_groups lib data_a data_b method <> inr r.
Proof.
  intros Hn Ht. rewrite compare_groups_eq, Hn, Ht.
  split; [reflexivity | discriminate].
Qed.

Lemma test_failure_propagates_witness :
  compare_groups Scenario.separated [] [1; 2; 3]%float "t-test"
  = inl (ValueError "`x` and `y` must be of nonzero size.").
Proof.
  exact (proj1 (@test_failure_propagates Scenario.separated []
                  [1; 2; 3]%float "t-test" false false _ eq_refl eq_refl)).
Defined.

(** A sample that is empty after sanitisation: the rank-sum test raises
    a [ValueError], and that is what the caller gets; it is no
    [ComputationError]. *)
Lemma computation_error_counterexample :
  ~ stated_failure_rule Scenario.separated [nan] [1; 2; 3]%float "t-test".
Proof.
  intros H.
  destruct (H false false
              (ValueError "`x` and `y` must be of nonzero size.")
              eq_refl eq_refl) as (e' & He & Hc).
  vm_compute in He. injection He as <-. discriminate Hc.
Qed.

(** ** The output contract *)

(** C7, as the code has it.  A returned result is a record of three
    fields.  [p_value] is the float the executed test returned, passed
    through as it is; [significant] is a boolean; [message] is a
    non-empty text without line breaks, of two sentences, and a third
    when significant: the verdict with the p-value printed by ['.4f']
    (four decimal places when the value is finite), the test used, and
    the direction. *)
Theorem output_contract (lib : Scipy) (data_a data_b : list float)
    (method : string) (r : Result) :
  compare_groups lib data_a data_b method = inr r ->
  let a := sanitize data_a in
  let b := sanitize data_b in
  exists t,
    r = mkResult (p_value r) (significant r) (message r) /\
    run_test lib t a b = inr (p_value r) /\
    message r = verdict (significant r) ++ Format.format_4f (p_value r) ++
                closing (significant r) t (gt (np_mean lib a) (np_mean lib b)) /\
    (is_finite (p_value r) = true ->
     four_decimals (Format.format_4f (p_value r))) /\
    names_test t (message r) = true /\
    message r <> "" /\
    no_line_break (message r) = true /\
    Text.sentences (message r) = (if significant r then 3 else 2)%nat.
Proof.
  intros Hr a b.
  destruct (@returned_message _ _ _ _ _ Hr) as (t & Ht & _ & Hm).
  exists t. fold a b in Ht, Hm.
  split; [now destruct r|]. rewrite Hm.
  split; [exact Ht|]. split; [reflexivity|].
  split; [apply FormatFacts.format_finite|].
  split; [now apply MessageFacts.message_names_test|].
  split; [apply MessageFacts.message_nonempty|].
  split; [apply MessageFacts.message_no_line_break|].
  apply MessageFacts.message_sentences.
Qed.

Lemma output_contract_witness :
  exists t,
    run_test Scenario.separated t Scenario.separated_a Scenario.separated_b
      = inr 1e-10%float /\
    Text.sentences
      "Significant difference found (p = 0.0000). Used T-test. Group B mean is higher."
    = 3%nat.
Proof.
  destruct (@output_contract Scenario.separated Scenario.separated_a
              Scenario.separated_b "t-test" _ eq_refl)
    as (t & _ & Ht & _ & _ & _ & _ & _ & Hs).
  exists t. split; [exact Ht | exact Hs].
Defined.

(** Two identical constant samples: the diagnostic passes both, the
    T-test yields NaN, and the result carries it.  The p-value is not a
    finite number in [0,1], and the message has two sentences. *)
Lemma output_contract_counterexample :
  exists r,
    compare_groups Scenario.constant Scenario.constant_a Scenario.constant_a
      "t-test" = inr r /\
    in_unit_interval (p_value r) = false /\
    Text.sentences (message r) = 2%nat /\
    ~ stated_output_contract r.
Proof.
  exists (mkResult nan false
            "No significant difference found (p = nan). Used T-test.").
  split; [vm_compute; reflexivity|].
  split; [vm_compute; reflexivity|].
  split; [vm_compute; reflexivity|].
  intros (H & _). vm_compute in H. discriminate H.
Qed.

(** ** The [method] parameter *)

(** C9.  The [method] argument changes nothing: the outcome and the
    SciPy calls made are the same for any two values of it; the test run
    is the one the normality checks select. *)
Theorem method_is_ignored (lib : Scipy) (data_a data_b : list float)
    (method1 method2 : string) :
  compare_groups lib data_a data_b method1 =
  compare_groups lib data_a data_b method2 /\
  calls lib data_a data_b method1 = calls lib data_a data_b method2.
Proof. split; reflexivity. Qed.


(** * Beyond the claims *)

(** ** Python lists *)

Module PyFacts.

Lemma comprehension_map (A B : Type) (f : A -> exn + B) (g : A -> B)
    (l : list A) :
  (forall x, In x l -> f x = inr (g x)) ->
  Py.comprehension f l = inr (map g l).
Proof.
  induction l as [|x l IH]; intros H; [reflexivity|].
  cbn [Py.comprehension map].
  rewrite (H x (or_introl eq_refl)). cbn.
  rewrite IH by (intros y Hy; apply H; now right). reflexivity.
Qed.

(** Indexing at [i % len(l)] never fails on a non-empty list. *)
Lemma cycle_item (A : Type) (l : list A) (d : A) (i : Z) :
  l <> [] ->
  (j <- Py.modulo i (Py.len l) ;; Py.getitem l j) =
  inr (nth (Z.to_nat (i mod Py.len l)) l d).
Proof.
  intros Hl. unfold Py.modulo, Py.getitem, Py.len.
  assert (Hlen : (0 < Z.of_nat (length l))%Z).
  { destruct l; [now elim Hl | cbn [length]; lia]. }
  destruct (Z.eqb_spec (Z.of_nat (length l)) 0) as [E|_]; [lia|].
  cbn.
  pose proof (Z.mod_pos_bound i _ Hlen) as Hb.
  destruct (Z.ltb_spec (i mod Z.of_nat (length l)) 0) as [?|_]; [lia|].
  destruct (Z.leb_spec 0 (i mod Z.of_nat (length l))) as [_|?]; [|lia].
  destruct (Z.ltb_spec (i mod Z.of_nat (length l)) (Z.of_nat (length l)))
    as [_|?]; [|lia].
  cbn [andb].
  rewrite (nth_error_nth' l d) by lia. reflexivity.
Qed.

Lemma firstn_as_map (A : Type) (l : list A) (d : A) (n : nat) :
  (n <= length l)%nat ->
  firstn n l = map (fun k => nth k l d) (seq 0 n).
Proof.
  revert n. induction l as [|x l IH]; intros [|n] Hn;
    try reflexivity; cbn [length] in Hn; [lia|].
  cbn [firstn seq map nth]. f_equal.
  rewrite (IH n) by lia. rewrite <- seq_shift, map_map. reflexivity.
Qed.

Lemma dict_get_in (V : Type) (d : list (string * V)) (key : string)
    (default : V) :
  In (Py.dict_get d key default) (default :: map snd d).
Proof.
  induction d as [|[k v] d IH]; cbn [Py.dict_get map snd]; [now left|].
  destruct (String.eqb key k); [right; now left|].
  destruct IH as [IH|IH]; [now left | right; now right].
Qed.

Lemma dict_get_missing (V : Type) (d : list (string * V)) (key : string)
    (default : V) :
  existsb (String.eqb key) (map fst d) = false ->
  Py.dict_get d key default = default.
Proof.
  induction d as [|[k v] d IH]; cbn [Py.dict_get map fst existsb];
    [reflexivity|].
  intros H. apply orb_false_iff in H as [-> H]. now apply IH.
Qed.

End PyFacts.

(** ** The palette *)

Module ColorsFacts.
Import Colors.

Lemma palette_of_nonempty (name : string) : palette_of name <> [].
Proof.
  unfold palette_of.
  pose proof (PyFacts.dict_get_in palettes name PALETTE_PRIMARY) as H.
  cbn [map snd palettes] in H.
  repeat (destruct H as [<-|H]; [discriminate|]). destruct H.
Qed.

Lemma palette_of_hex (name : string) :
  forallb is_hex_color (palette_of name) = true.
Proof.
  unfold palette_of.
  pose proof (PyFacts.dict_get_in palettes name PALETTE_PRIMARY) as H.
  cbn [map snd palettes] in H.
  repeat (destruct H as [<-|H]; [reflexivity|]). destruct H.
Qed.

(** A non-negative count, on a non-empty palette: both branches read
    the palette round and round. *)
Lemma take_colors_cycled (palette : list string) (n : Z) :
  palette <> [] -> (0 <= n)%Z ->
  take_colors palette (Some n) = inr (cycled palette (Z.to_nat n)).
Proof.
  intros Hp Hn. unfold take_colors, cycled.
  destruct (Z.leb_spec n (Py.len palette)) as [Hle|Hgt].
  - unfold Py.slice_to, Py.len in *.
    destruct (Z.ltb_spec n 0) as [?|_]; [lia|].
    rewrite (PyFacts.firstn_as_map palette EmptyString) by lia.
    f_equal. apply map_ext_in. intros k Hk. apply in_seq in Hk.
    rewrite Nat.mod_small by lia. reflexivity.
  - rewrite (PyFacts.comprehension_map _
               (fun i => nth (Z.to_nat (i mod Py.len palette)) palette
                           EmptyString))
      by (intros; now apply PyFacts.cycle_item).
    unfold Py.range. rewrite map_map. f_equal. apply map_ext. intros k.
    unfold Py.len.
    assert (length palette <> 0)%nat by (destruct palette; [easy | discriminate]).
    rewrite <- Nat2Z.inj_mod, Nat2Z.id. reflexivity.
Qed.

Lemma cycled_length (palette : list string) (n : nat) :
  length (cycled palette n) = n.
Proof. unfold cycled. now rewrite length_map, length_seq. Qed.

Lemma cycled_nth_error (palette : list string) (n k : nat) :
  palette <> [] -> (k < n)%nat ->
  nth_error (cycled palette n) k =
  nth_error palette (k mod length palette).
Proof.
  intros Hp Hk. unfold cycled.
  assert (HL : (length palette <> 0)%nat)
    by (destruct palette; [easy | discriminate]).
  rewrite nth_error_map, nth_error_seq.
  destruct (Nat.ltb_spec k n) as [_|?]; [|lia]. cbn.
  symmetry. apply nth_error_nth'. now apply Nat.mod_upper_bound.
Qed.

Lemma cycled_firstn (palette : list string) (n m : nat) :
  (n <= m)%nat -> firstn n (cycled palette m) = cycled palette n.
Proof.
  intros H. unfold cycled. rewrite firstn_map. f_equal.
  replace m with (n + (m - n))%nat by lia.
  rewrite seq_app, firstn_app, length_seq, Nat.sub_diag.
  cbn [firstn]. rewrite app_nil_r.
  rewrite <- (length_seq n 0) at 1. apply firstn_all.
Qed.

End ColorsFacts.

(** X1.  For every palette name, known or not, and every count
    [n >= 0], [get_palette] raises nothing and returns exactly [n]
    colours, also when [n] exceeds the size of the palette. *)
Theorem get_palette_count (name : string) (n : Z) :
  (0 <= n)%Z ->
  exists l, Colors.get_palette name (Some n) = inr l /\ Py.len l = n.
Proof.
  intros Hn. exists (Colors.cycled (Colors.palette_of name) (Z.to_nat n)).
  split.
  - apply ColorsFacts.take_colors_cycled;
      [apply ColorsFacts.palette_of_nonempty | exact Hn].
  - unfold Py.len. rewrite ColorsFacts.cycled_length. lia.
Qed.

Lemma get_palette_count_witness :
  exists l, Colors.get_palette "diverging" (Some 9%Z) = inr l /\
            Py.len l = 9%Z.
Proof. apply get_palette_count. lia. Defined.

(** X2.  The colour at position [k] of a returned palette is the colour
    at position [k mod len(palette)] of the palette named: below the
    palette's size the palette is cut, above it it is cycled. *)
Theorem get_palette_cycles (name : string) (n : Z) (l : list string)
    (k : nat) :
  (0 <= n)%Z ->
  Colors.get_palette name (Some n) = inr l ->
  (k < Z.to_nat n)%nat ->
  nth_error l k =
  nth_error (Colors.palette_of name)
    (k mod length (Colors.palette_of name)).
Proof.
  intros Hn Hl Hk. unfold Colors.get_palette in Hl.
  fold (Colors.palette_of name) in Hl.
  rewrite ColorsFacts.take_colors_cycled in Hl
    by (apply ColorsFacts.palette_of_nonempty || exact Hn).
  injection Hl as <-.
  apply ColorsFacts.cycled_nth_error;
    [apply ColorsFacts.palette_of_nonempty | exact Hk].
Qed.

Lemma get_palette_cycles_witness :
  nth_error
    ["#E8F5E9"; "#21A038"; "#168A2C"; "#E8F5E9"; "#21A038"] 4
  = nth_error (Colors.palette_of "gradient_green") 1.
Proof.
  apply (@get_palette_cycles "gradient_green" 5%Z _ 4%nat);
    [lia | reflexivity | vm_compute; lia].
Defined.

(** X3.  Asking for more colours never changes the ones already given:
    for [0 <= n <= m] the palette of [n] colours is the first [n]
    colours of the palette of [m]. *)
Theorem get_palette_prefix (name : string) (n m : Z) (lm : list string) :
  (0 <= n <= m)%Z ->
  Colors.get_palette name (Some m) = inr lm ->
  Colors.get_palette name (Some n) = inr (firstn (Z.to_nat n) lm).
Proof.
  intros [Hn Hm] Hl. unfold Colors.get_palette in *.
  fold (Colors.palette_of name) in *.
  rewrite ColorsFacts.take_colors_cycled in Hl
    by (apply ColorsFacts.palette_of_nonempty || lia).
  injection Hl as <-.
  rewrite ColorsFacts.cycled_firstn by lia.
  apply ColorsFacts.take_colors_cycled;
    [apply ColorsFacts.palette_of_nonempty | exact Hn].
Qed.

Lemma get_palette_prefix_witness :
  Colors.get_palette "primary" (Some 2%Z) =
  inr (firstn 2
         ["#21A038"; "#0E67D7"; "#FF6B00"; "#7B4EA5"; "#FFB800"; "#E31E24";
          "#21A038"; "#0E67D7"]).
Proof.
  apply (@get_palette_prefix "primary" 2%Z 8%Z); [lia | reflexivity].
Defined.

(** X4.  A name that is not a key of the [palettes] dict gets the
    primary palette, whatever the count; no error is raised for it. *)
Theorem get_palette_unknown_name (name : string) (n_colors : option Z) :
  existsb (String.eqb name) (map fst Colors.palettes) = false ->
  Colors.get_palette name n_colors = Colors.get_palette "primary" n_colors.
Proof.
  intros H. unfold Colors.get_palette.
  now rewrite (PyFacts.dict_get_missing _ _ _ H).
Qed.

Lemma get_palette_unknown_name_witness :
  Colors.get_palette "rainbow" None = inr Colors.PALETTE_PRIMARY.
Proof.
  exact (@get_palette_unknown_name "rainbow" None eq_refl).
Defined.

(** X5.  A negative count is not rejected: it is taken as a slice bound,
    so [get_palette(name, n)] with [n < 0] returns the palette without
    its last [-n] colours (nothing when [-n] reaches its size). *)
Theorem get_palette_negative_count (name : string) (n : Z) :
  (n < 0)%Z ->
  Colors.get_palette name (Some n) =
  inr (firstn (length (Colors.palette_of name) - Z.to_nat (- n))
         (Colors.palette_of name)).
Proof.
  intros Hn. unfold Colors.get_palette, Colors.take_colors.
  fold (Colors.palette_of name).
  unfold Py.slice_to, Py.len.
  destruct (Z.leb_spec n (Z.of_nat (length (Colors.palette_of name))))
    as [_|?]; [|lia].
  destruct (Z.ltb_spec n 0) as [_|?]; [|lia].
  do 2 f_equal. lia.
Qed.

Lemma get_palette_negative_count_witness :
  Colors.get_palette "primary" (Some (-1)%Z) =
  inr ["#21A038"; "#0E67D7"; "#FF6B00"; "#7B4EA5"; "#FFB800"].
Proof. apply (@get_palette_negative_count "primary" (-1)%Z). lia. Defined.

(** X6.  [get_color] accepts every integer, negative ones too: it
    raises nothing, returns a colour of the primary palette, and is
    periodic with the palette's six colours. *)
Theorem get_color_total_periodic (index k : Z) :
  exists c,
    Colors.get_color index = inr c /\
    In c Colors.PALETTE_PRIMARY /\
    Colors.get_color (index + 6 * k) = inr c.
Proof.
  assert (Hp : Colors.PALETTE_PRIMARY <> []) by discriminate.
  unfold Colors.get_color.
  rewrite !(PyFacts.cycle_item EmptyString _ Hp).
  eexists. split; [reflexivity|]. split.
  - apply nth_In. change (Py.len Colors.PALETTE_PRIMARY) with 6%Z.
    change (length Colors.PALETTE_PRIMARY) with 6%nat.
    pose proof (Z.mod_pos_bound index 6 eq_refl). lia.
  - change (Py.len Colors.PALETTE_PRIMARY) with 6%Z.
    now rewrite Z.mul_comm, Z.mod_add.
Qed.

(** X7.  The colours [get_palette('primary', n)] hands out are those of
    [get_color]: position [i] holds [get_color(i)], for [0 <= i < n]. *)
Theorem get_palette_primary_is_get_color (n i : Z) (l : list string) :
  (0 <= i < n)%Z ->
  Colors.get_palette "primary" (Some n) = inr l ->
  exists c, nth_error l (Z.to_nat i) = Some c /\ Colors.get_color i = inr c.
Proof.
  intros Hi Hl.
  assert (Hp : Colors.PALETTE_PRIMARY <> []) by discriminate.
  change (Colors.get_palette "primary" (Some n))
    with (Colors.take_colors Colors.PALETTE_PRIMARY (Some n)) in Hl.
  rewrite ColorsFacts.take_colors_cycled in Hl by (assumption || lia).
  injection Hl as <-.
  unfold Colors.get_color.
  rewrite (PyFacts.cycle_item EmptyString _ Hp).
  eexists. split; [|reflexivity].
  rewrite ColorsFacts.cycled_nth_error by (assumption || lia).
  change (Py.len Colors.PALETTE_PRIMARY) with 6%Z.
  change (length Colors.PALETTE_PRIMARY) with 6%nat.
  pose proof (Z.mod_pos_bound i 6 eq_refl).
  rewrite (nth_error_nth' _ EmptyString)
    by (change (length Colors.PALETTE_PRIMARY) with 6%nat;
        apply Nat.mod_upper_bound; lia).
  do 2 f_equal.
  change 6%nat with (Z.to_nat 6). rewrite <- Z2Nat.inj_mod by lia.
  reflexivity.
Qed.

Lemma get_palette_primary_is_get_color_witness :
  exists c,
    nth_error
      ["#21A038"; "#0E67D7"; "#FF6B00"; "#7B4EA5"; "#FFB800"; "#E31E24";
       "#21A038"; "#0E67D7"] 7 = Some c /\
    Colors.get_color 7%Z = inr c.
Proof.
  apply (@get_palette_primary_is_get_color 8%Z 7%Z); [lia | reflexivity].
Defined.

Lemma forallb_firstn (A : Type) (P : A -> bool) (l : list A) (k : nat) :
  forallb P l = true -> forallb P (firstn k l) = true.
Proof.
  revert k. induction l as [|x l IH]; intros [|k] H; try reflexivity.
  cbn [firstn forallb] in *. apply andb_true_iff in H as [-> H].
  now rewrite IH.
Qed.

Lemma forallb_cycled (P : string -> bool) (palette : list string) (n : nat) :
  palette <> [] ->
  forallb P palette = true -> forallb P (Colors.cycled palette n) = true.
Proof.
  intros Hp H. apply forallb_forall. intros c Hc.
  unfold Colors.cycled in Hc. apply in_map_iff in Hc as (k & <- & _).
  rewrite forallb_forall in H. apply H, nth_In, Nat.mod_upper_bound.
  destruct palette; [easy | discriminate].
Qed.

(** X8.  Whatever the name and the count, every colour [get_palette]
    returns is a well-formed hex code [#RRGGBB]. *)
Theorem get_palette_hex_codes (name : string) (n_colors : option Z)
    (l : list string) :
  Colors.get_palette name n_colors = inr l ->
  forallb Colors.is_hex_color l = true.
Proof.
  unfold Colors.get_palette. fold (Colors.palette_of name).
  pose proof (ColorsFacts.palette_of_hex name) as Hh.
  pose proof (ColorsFacts.palette_of_nonempty name) as Hp.
  destruct n_colors as [n|].
  - destruct (Z.ltb_spec n 0) as [Hn|Hn].
    + unfold Colors.take_colors.
      destruct (Z.leb_spec n (Py.len (Colors.palette_of name)))
        as [_|?]; [|unfold Py.len in *; lia].
      intros [= <-]. now apply forallb_firstn.
    + rewrite ColorsFacts.take_colors_cycled by assumption.
      intros [= <-]. now apply forallb_cycled.
  - intros [= <-]. exact Hh.
Qed.

Lemma get_palette_hex_codes_witness :
  forallb Colors.is_hex_color
    ["#FFE0B2"; "#FF6B00"; "#E31E24"; "#FFE0B2"] = true.
Proof.
  exact (@get_palette_hex_codes "gradient_warm" (Some 4%Z) _ eq_refl).
Defined.


(** ** More on the comparison routine *)

Lemma nan_free_sanitize (x : list float) : nan_free (sanitize x) = true.
Proof.
  unfold nan_free, sanitize. apply forallb_forall. intros v Hv.
  now apply filter_In in Hv.
Qed.

(** The SciPy calls of one invocation, in order. *)
Lemma calls_eq (lib : Scipy) (data_a data_b : list float) (method : string) :
  calls lib data_a data_b method =
  CallShapiro (sanitize data_a) ::
  match shapiro lib (sanitize data_a) with
  | inl (ValueError _) =>
      [CallMannWhitney (sanitize data_a) (sanitize data_b)]
  | inl (OtherError _ _) => []
  | inr pa =>
      CallShapiro (sanitize data_b) ::
      match shapiro lib (sanitize data_b) with
      | inl (ValueError _) =>
          [CallMannWhitney (sanitize data_a) (sanitize data_b)]
      | inl (OtherError _ _) => []
      | inr pb =>
          [call_of (select_test (ge pa ALPHA) (ge pb ALPHA))
             (sanitize data_a) (sanitize data_b)]
      end
  end.
Proof.
  unfold calls, run, compare_groups, check_normality, decide_on_test,
    logged, log_call.
  cbn.
  destruct (shapiro lib (sanitize data_a)) as [[?|? ?]|pa]; cbn.
  - destruct (mannwhitneyu lib _ _); reflexivity.
  - reflexivity.
  - destruct (shapiro lib (sanitize data_b)) as [[?|? ?]|pb]; cbn.
    + destruct (mannwhitneyu lib _ _); reflexivity.
    + reflexivity.
    + unfold select_test.
      match goal with |- context [if ?c then _ else _] => destruct c end;
        cbn;
        [destruct (ttest_ind lib _ _) | destruct (mannwhitneyu lib _ _)];
        reflexivity.
Qed.

(** X9.  Only [ValueError] is absorbed.  When Shapiro-Wilk raises any
    other exception, on the first sample or on the second, the call
    fails with that very exception and no hypothesis test is run. *)
Theorem diagnostic_other_error_surfaces (lib : Scipy)
    (data_a data_b : list float) (method : string) (cls msg : string) :
  let a := sanitize data_a in
  let b := sanitize data_b in
  (shapiro lib a = inl (OtherError cls msg) \/
   exists pa, shapiro lib a = inr pa /\
              shapiro lib b = inl (OtherError cls msg)) ->
  compare_groups lib data_a data_b method = inl (OtherError cls msg) /\
  executed_tests lib data_a data_b method = [].
Proof.
  intros a b H.
  assert (Hn : check_normality lib a b = inl (OtherError cls msg)).
  { rewrite check_normality_eq.
    destruct H as [->|(pa & -> & ->)]; reflexivity. }
  split.
  - rewrite compare_groups_eq. fold a b. now rewrite Hn.
  - rewrite executed_tests_eq. fold a b. now rewrite Hn.
Qed.

Lemma diagnostic_other_error_surfaces_witness :
  compare_groups Scenario.exhausted Scenario.separated_a Scenario.separated_b
    "t-test" = inl (OtherError "MemoryError" "").
Proof.
  exact (proj1 (@diagnostic_other_error_surfaces Scenario.exhausted
                  Scenario.separated_a Scenario.separated_b "t-test"
                  "MemoryError" "" (or_introl eq_refl))).
Defined.

(** X10.  A hypothesis test that yields NaN gives a result, not a
    failure: once the diagnostic step has returned and the selected
    test answers NaN, the call returns the record with that p-value,
    [significant] false, and the message "No significant difference
    found (p = nan). Used <test>.", which states no direction. *)
Theorem nan_p_value_not_significant (lib : Scipy)
    (data_a data_b : list float) (method : string) (na nb : bool)
    (p : float) :
  let a := sanitize data_a in
  let b := sanitize data_b in
  let text := "No significant difference found (p = nan). Used " ++
              test_name (select_test na nb) ++ "." in
  check_normality lib a b = inr (na, nb) ->
  run_test lib (select_test na nb) a b = inr p ->
  PrimFloat.is_nan p = true ->
  compare_groups lib data_a data_b method = inr (mkResult p false text) /\
  has_direction text = false.
Proof.
  intros a b text Hn Ht Hnan.
  assert (Hr : compare_groups lib data_a data_b method =
               inr (report lib (test_name (select_test na nb)) p a b)).
  { rewrite compare_groups_eq. fold a b. now rewrite Hn, Ht. }
  pose proof (report_message lib (select_test na nb) p a b) as Hm'.
  rewrite (FloatFacts.nan_not_lt _ ALPHA Hnan),
    (FloatFacts.nan_format _ Hnan) in Hm'.
  change (message (report lib (test_name (select_test na nb)) p a b) = text)
    in Hm'.
  assert (Hrec : report lib (test_name (select_test na nb)) p a b =
                 mkResult p false text).
  { rewrite <- Hm'.
    rewrite <- (report_p_value lib (test_name (select_test na nb)) p a b)
      at 2.
    rewrite <- (FloatFacts.nan_not_lt _ ALPHA Hnan).
    rewrite <- (report_significant lib (test_name (select_test na nb)) p a b).
    now destruct (report lib (test_name (select_test na nb)) p a b). }
  split; [now rewrite Hr, Hrec|].
  unfold has_direction.
  change text with
    (verdict false ++ "nan" ++ closing false (select_test na nb) false).
  rewrite <- (FloatFacts.nan_format _ Hnan).
  fold (message_text false (select_test na nb) false p).
  now rewrite MessageFacts.message_says_A, MessageFacts.message_says_B.
Qed.

Lemma nan_p_value_not_significant_witness :
  compare_groups Scenario.constant Scenario.constant_a Scenario.constant_a
    "t-test"
  = inr (mkResult nan false
           "No significant difference found (p = nan). Used T-test.").
Proof.
  exact (proj1
    (@nan_p_value_not_significant Scenario.constant Scenario.constant_a
       Scenario.constant_a "t-test" true true nan eq_refl eq_refl eq_refl)).
Defined.

(** X11.  A Shapiro-Wilk that answers NaN for a sample, as it may for a
    sample it cannot judge, classifies nothing as normal: the
    Mann-Whitney test is the one run. *)
Theorem nan_diagnostic_selects_rank_test (lib : Scipy)
    (data_a data_b : list float) (method : string) (p : float) :
  shapiro_raises_only_ValueError lib ->
  PrimFloat.is_nan p = true ->
  let a := sanitize data_a in
  let b := sanitize data_b in
  (shapiro lib a = inr p \/ shapiro lib b = inr p) ->
  executed_tests lib data_a data_b method = [CallMannWhitney a b].
Proof.
  intros Hc Hnan a b H.
  destruct (check_normality_total (lib:=lib) a b Hc) as (na & nb & Hn).
  pose proof (check_normality_verdict _ _ _ Hn) as Hv.
  rewrite executed_tests_eq. fold a b. rewrite Hn.
  unfold select_test. rewrite Hv. unfold classified_normal.
  destruct H as [-> | ->]; rewrite (FloatFacts.nan_not_ge _ ALPHA Hnan);
    [reflexivity | now rewrite andb_false_r].
Qed.

Lemma nan_diagnostic_selects_rank_test_witness :
  executed_tests Scenario.undecided Scenario.separated_a Scenario.separated_b
    "t-test"
  = [CallMannWhitney Scenario.separated_a Scenario.separated_b].
Proof.
  exact (@nan_diagnostic_selects_rank_test Scenario.undecided
           Scenario.separated_a Scenario.separated_b "t-test" nan
           (double_only_ValueError _ _ _) eq_refl (or_introl eq_refl)).
Defined.

(** X12.  SciPy never sees a NaN, nor anything but the two sanitized
    samples: an invocation makes at most three calls, and every sample
    passed in any of them is one of the sanitized inputs and NaN-free. *)
Theorem scipy_sees_sanitized_samples (lib : Scipy)
    (data_a data_b : list float) (method : string) :
  (length (calls lib data_a data_b method) <= 3)%nat /\
  forall c x,
    In c (calls lib data_a data_b method) -> In x (call_args c) ->
    (x = sanitize data_a \/ x = sanitize data_b) /\ nan_free x = true.
Proof.
  rewrite calls_eq. split.
  - destruct (shapiro lib (sanitize data_a)) as [[?|? ?]|pa];
      [cbn; lia | cbn; lia |].
    destruct (shapiro lib (sanitize data_b)) as [[?|? ?]|pb]; cbn; lia.
  - intros c x Hc Hx.
    assert (Hs : x = sanitize data_a \/ x = sanitize data_b).
    { destruct (shapiro lib (sanitize data_a)) as [[?|? ?]|pa];
        [| |destruct (shapiro lib (sanitize data_b)) as [[?|? ?]|pb];
            [| |destruct (select_test (ge pa ALPHA) (ge pb ALPHA))]];
        cbn in Hc;
        repeat (destruct Hc as [<-|Hc]; [cbn in Hx; intuition auto|]);
        destruct Hc. }
    split; [exact Hs|].
    destruct Hs as [-> | ->]; apply nan_free_sanitize.
Qed.

(** X13.  The second sample is diagnosed only if the first one got
    through: when Shapiro-Wilk raises on the first sample, it is not
    called on the second; after a [ValueError] the Mann-Whitney test is
    the only other call, after any other exception there is none. *)
Theorem first_diagnostic_failure_skips_second (lib : Scipy)
    (data_a data_b : list float) (method : string) (e : exn) :
  shapiro lib (sanitize data_a) = inl e ->
  calls lib data_a data_b method =
  CallShapiro (sanitize data_a) ::
  (if is_ValueError e
   then [CallMannWhitney (sanitize data_a) (sanitize data_b)]
   else []).
Proof. intros H. rewrite calls_eq, H. now destruct e. Qed.

Lemma first_diagnostic_failure_skips_second_witness :
  calls Scenario.separated [1; 2]%float Scenario.separated_b "t-test" =
  [CallShapiro [1; 2]%float;
   CallMannWhitney [1; 2]%float Scenario.separated_b].
Proof.
  exact (@first_diagnostic_failure_skips_second Scenario.separated
           [1; 2]%float Scenario.separated_b "t-test" _ eq_refl).
Defined.

(** ** The order of the two groups *)

Lemma SFcompare_Lt_Gt (f1 f2 : spec_float) :
  SFcompare f1 f2 = Some Lt -> SFcompare f2 f1 = Some Gt.
Proof.
  destruct f1 as [s1|s1| |s1 m1 e1], f2 as [s2|s2| |s2 m2 e2]; cbn;
    try discriminate; try (destruct s1, s2; congruence);
    try (destruct s1; congruence); try (destruct s2; congruence).
  rewrite (Z.compare_antisym e1 e2).
  change (Pos.compare_cont Eq m2 m1) with (Pos.compare m2 m1).
  change (Pos.compare_cont Eq m1 m2) with (Pos.compare m1 m2).
  rewrite (Pos.compare_antisym m1 m2).
  destruct s1, s2, (e1 ?= e2)%Z, (m1 ?= m2)%positive; cbn; congruence.
Qed.

Lemma ltb_asym (x y : float) :
  PrimFloat.ltb x y = true -> PrimFloat.ltb y x = false.
Proof.
  rewrite !FloatAxioms.ltb_spec. unfold SFltb.
  destruct (SFcompare (Prim2SF x) (Prim2SF y)) as [[| |]|] eqn:E;
    try discriminate.
  now rewrite (@SFcompare_Lt_Gt _ _ E).
Qed.

Lemma double_symmetric_mwu p_shapiro p_ttest (p : float) :
  symmetric (mannwhitneyu (Double.scipy p_shapiro p_ttest (fun _ _ => p))).
Proof.
  intros x y. unfold Double.scipy. cbn [mannwhitneyu].
  now rewrite orb_comm.
Qed.

(** X14.  With a Shapiro-Wilk that raises nothing but [ValueError] and
    two-sided tests whose p-value does not depend on the order of the
    samples, exchanging the two groups gives the same p-value, the same
    significance and the same test; and when the message said that
    group A is higher, the message of the exchanged call says so of
    group B. *)
Theorem group_order_symmetry (lib : Scipy) (data_a data_b : list float)
    (method : string) (r : Result) :
  shapiro_raises_only_ValueError lib ->
  symmetric (ttest_ind lib) ->
  symmetric (mannwhitneyu lib) ->
  compare_groups lib data_a data_b method = inr r ->
  exists r',
    compare_groups lib data_b data_a method = inr r' /\
    p_value r' = p_value r /\
    significant r' = significant r /\
    (forall t, names_test t (message r') = true <->
               names_test t (message r) = true) /\
    (says_A_higher (message r) = true -> says_B_higher (message r') = true).
Proof.
  intros Hc Hts Hms Hr.
  apply returned_inv in Hr as (na & nb & p & Hn & Ht & ->).
  destruct (check_normality_total (lib:=lib) (sanitize data_b)
              (sanitize data_a) Hc) as (nb' & na' & Hn').
  pose proof (check_normality_verdict _ _ _ Hn) as Hv.
  pose proof (check_normality_verdict _ _ _ Hn') as Hv'.
  assert (Hsel : select_test nb' na' = select_test na nb).
  { unfold select_test. now rewrite Hv, Hv', andb_comm. }
  assert (Ht' : run_test lib (select_test nb' na') (sanitize data_b)
                  (sanitize data_a) = inr p).
  { rewrite Hsel, <- Ht. destruct (select_test na nb); cbn [run_test];
      [apply Hts | apply Hms]. }
  eexists. split.
  - rewrite compare_groups_eq, Hn', Ht'. reflexivity.
  - rewrite Hsel, !report_p_value, !report_significant, !report_message.
    fold (message_text (lt p ALPHA) (select_test na nb)
            (gt (np_mean lib (sanitize data_b)) (np_mean lib (sanitize data_a)))
            p).
    fold (message_text (lt p ALPHA) (select_test na nb)
            (gt (np_mean lib (sanitize data_a)) (np_mean lib (sanitize data_b)))
            p).
    split; [reflexivity|]. split; [reflexivity|]. split.
    + intros t. now rewrite !MessageFacts.message_names_test.
    + rewrite MessageFacts.message_says_A, MessageFacts.message_says_B.
      intros H. apply andb_true_iff in H as [-> Hg].
      unfold gt in *. now rewrite (@ltb_asym _ _ Hg).
Qed.

Lemma group_order_symmetry_witness :
  exists r',
    compare_groups Scenario.separated Scenario.separated_a
      Scenario.separated_b "t-test" = inr r' /\
    p_value r' = 1e-10%float /\
    says_B_higher (message r') = true.
Proof.
  destruct (@group_order_symmetry Scenario.separated Scenario.separated_b
              Scenario.separated_a "t-test" _
              (double_only_ValueError _ _ _)
              (fun x y => eq_refl)
              (double_symmetric_mwu _ _ _)
              eq_refl)
    as (r' & Hr & Hp & _ & _ & Hd).
  exists r'. split; [exact Hr|]. split; [exact Hp|].
  apply Hd. vm_compute. reflexivity.
Defined.

(** ** Where a failure comes from *)

(** X15.  On samples of floats, past the conversion and the NaN
    filter: an exception that reaches the caller was raised by one of
    the SciPy routines on the sanitized samples, and a [ValueError]
    among them by one of the two hypothesis tests, never by the
    diagnostic. *)
Theorem failure_provenance (lib : Scipy) (data_a data_b : list float)
    (method : string) (e : exn) :
  compare_groups lib data_a data_b method = inl e ->
  let a := sanitize data_a in
  let b := sanitize data_b in
  (shapiro lib a = inl e \/ shapiro lib b = inl e \/
   ttest_ind lib a b = inl e \/ mannwhitneyu lib a b = inl e) /\
  (is_ValueError e = true ->
   ttest_ind lib a b = inl e \/ mannwhitneyu lib a b = inl e).
Proof.
  intros H a b. rewrite compare_groups_eq, check_normality_eq in H.
  fold a b in H.
  assert (Htest : forall na nb,
            match run_test lib (select_test na nb) a b with
            | inl e0 => inl e0
            | inr p => inr (report lib (test_name (select_test na nb)) p a b)
            end = inl e ->
            ttest_ind lib a b = inl e \/ mannwhitneyu lib a b = inl e).
  { intros na nb. destruct (select_test na nb); cbn [run_test];
      [destruct (ttest_ind lib a b) | destruct (mannwhitneyu lib a b)];
      intros [= ->]; auto. }
  destruct (shapiro lib a) as [[m1|c1 m1]|pa] eqn:Ea.
  - apply Htest in H. tauto.
  - injection H as <-. split; [auto | discriminate].
  - destruct (shapiro lib b) as [[m2|c2 m2]|pb] eqn:Eb.
    + apply Htest in H. tauto.
    + injection H as <-. split; [auto | discriminate].
    + apply Htest in H. tauto.
Qed.

Lemma failure_provenance_witness :
  mannwhitneyu Scenario.separated [] [1; 2; 3]%float
  = inl (ValueError "`x` and `y` must be of nonzero size.").
Proof.
  destruct (proj2 (@failure_provenance Scenario.separated [nan]%float
                     [1; 2; 3]%float "t-test" _ eq_refl) eq_refl)
    as [H|H]; [discriminate H | exact H].
Defined.

(** X16.  With a Shapiro-Wilk that raises nothing but [ValueError],
    [compare_groups] returns a result whenever the two hypothesis tests
    return a value on the sanitized samples, be it NaN: a sample that is
    empty or too short for the diagnostic does not by itself make the
    call fail. *)
Theorem returns_when_tests_return (lib : Scipy) (data_a data_b : list float)
    (method : string) (pt pm : float) :
  shapiro_raises_only_ValueError lib ->
  ttest_ind lib (sanitize data_a) (sanitize data_b) = inr pt ->
  mannwhitneyu lib (sanitize data_a) (sanitize data_b) = inr pm ->
  exists r,
    compare_groups lib data_a data_b method = inr r /\
    (p_value r = pt \/ p_value r = pm).
Proof.
  intros Hc Ht Hm.
  destruct (check_normality_total (lib:=lib) (sanitize data_a)
              (sanitize data_b) Hc) as (na & nb & Hn).
  rewrite compare_groups_eq, Hn.
  destruct (select_test na nb); cbn [run_test]; rewrite ?Ht, ?Hm;
    eexists; (split; [reflexivity|]); rewrite report_p_value; auto.
Qed.

Lemma returns_when_tests_return_witness :
  exists r,
    compare_groups Scenario.exhausted_tests [] [] "t-test" = inr r /\
    (p_value r = nan \/ p_value r = nan).
Proof.
  exact (@returns_when_tests_return Scenario.exhausted_tests [] [] "t-test"
           nan nan (double_only_ValueError _ _ _) eq_refl eq_refl).
Defined.

(** ** The frame of the message *)

(** X17.  The message of a returned result has no white space at either
    end, and it begins with "Significant difference found" exactly when
    [significant] holds (otherwise with "No significant difference
    found"). *)
Theorem message_frame (lib : Scipy) (data_a data_b : list float)
    (method : string) (r : Result) :
  compare_groups lib data_a data_b method = inr r ->
  Text.strip (message r) = message r /\
  String.prefix "Significant difference found" (message r) = significant r /\
  String.prefix "No significant difference found" (message r)
    = negb (significant r).
Proof.
  intros Hr. destruct (@returned_message _ _ _ _ _ Hr) as (t & _ & _ & ->).
  unfold message_text. split.
  - rewrite <- TextFacts.append_assoc.
    rewrite strip_framed.
    + f_equal. now destruct (significant r), t, (gt _ _).
    + destruct (significant r); eexists _, _; split; reflexivity.
    + now destruct (significant r), t, (gt _ _).
  - now destruct (significant r).
Qed.

Lemma message_frame_witness :
  String.prefix "Significant difference found"
    "Significant difference found (p = 0.0000). Used T-test. Group B mean is higher."
  = true.
Proof.
  exact (proj1 (proj2 (@message_frame Scenario.separated
                         Scenario.separated_a Scenario.separated_b "t-test"
                         _ eq_refl))).
Defined.
